(** * Manager synthesis and request narrowing of the mypy Django plugin

    A shallow embedding of
    [mypy_django_plugin/transformers/managers.py] and
    [mypy_django_plugin/transformers/request.py].

    The transformers run inside mypy's semantic analyzer and type checker.
    The analyzer is modelled as a record that is threaded through every
    call, Python exceptions as a [result], dictionaries whose order is
    observable (symbol tables) as association lists with Python's
    assignment, and [TypeInfo.metadata] as a finite map held in the
    analyzer state and addressed by the class's full name, because the
    objects are shared by reference. *)

From Stdlib Require Import Ascii String.
From stdpp Require Import gmap strings list fin_maps.

Set Warnings "-register-all".
Set Default Proof Using "Type".

Open Scope string_scope.

(** ** Exceptions and the analyzer monad *)

Inductive exn : Type :=
  | IncompleteDefnException (error_message : string)
  | BoundNameNotFound (fullname : option string)
  | AssertionError
  | AttributeError
  | IndexError
  | KeyError (key : string)
  | LookupError
  | NameError (name : string)
  | ValueError (error_message : string).

Inductive result (A : Type) : Type :=
  | Return (a : A)
  | Raise (e : exn).
Arguments Return {A} a.
Arguments Raise {A} e.

(** A computation over a state [S]: the state after an exception is kept,
    as Python keeps every mutation made before the [raise]. *)
Definition M (S A : Type) : Type := S -> result A * S.

Definition ret {S A} (a : A) : M S A := fun st => (Return a, st).
Definition raise {S A} (e : exn) : M S A := fun st => (Raise e, st).
Definition bind {S A B} (m : M S A) (k : A -> M S B) : M S B :=
  fun st =>
    match m st with
    | (Return a, st') => k a st'
    | (Raise e, st') => (Raise e, st')
    end.
Definition get {S} : M S S := fun st => (Return st, st).
Definition modify {S} (f : S -> S) : M S unit := fun st => (Return tt, f st).
Definition assert {S} (b : bool) : M S unit :=
  if b then ret tt else raise AssertionError.

Notation "'let*' x ':=' m 'in' k" := (bind m (fun x => k))
  (at level 10, x pattern, m at level 100, k at level 200).
Notation "'do' m 'then' k" := (bind m (fun _ => k))
  (at level 10, m at level 100, k at level 200).

(** Unfold the monad in the goal and in the hypotheses. *)
Ltac run_monad := unfold bind, ret, raise, get, modify, assert in *; simpl in *.

(** ** Python dictionaries that are iterated: association lists *)

Section dict.
Context {V : Type}.

(** [d.get(k)] *)
Fixpoint dict_get (d : list (string * V)) (k : string) : option V :=
  match d with
  | [] => None
  | (k', v) :: rest => if String.eqb k' k then Some v else dict_get rest k
  end.

(** [d[k] = v]: an existing key keeps its position, a new key goes last. *)
Fixpoint dict_set (d : list (string * V)) (k : string) (v : V) : list (string * V) :=
  match d with
  | [] => [(k, v)]
  | (k', v') :: rest =>
      if String.eqb k' k then (k', v) :: rest else (k', v') :: dict_set rest k v
  end.

Definition dict_keys (d : list (string * V)) : list string := d.*1.
End dict.

(** ** Strings *)

(** [s.rpartition('.')], as the pair (head, tail) with [None] when [s] has
    no dot. *)
Fixpoint rsplit_dot (s : string) : option (string * string) :=
  match s with
  | EmptyString => None
  | String c rest =>
      match rsplit_dot rest with
      | Some (h, t) => Some (String c h, t)
      | None => if Ascii.eqb c "."%char then Some (EmptyString, rest) else None
      end
  end.

Definition rpartition_dot (s : string) : string * string * string :=
  match rsplit_dot s with
  | Some (h, t) => (h, ".", t)
  | None => ("", "", s)
  end.

(** [repr] of a string without quotes in it. *)
Definition repr (s : string) : string := "'" +:+ s +:+ "'".

(** ** mypy's types and nodes *)

Inductive TypeOfAny : Type := unannotated | explicit.

(** An [Instance] points to its [TypeInfo]; the pointer is the class's
    name and full name. *)
Record TypeRef : Type := { ref_name : string; ref_fullname : string }.

Inductive MypyType : Type :=
  | AnyType (type_of_any : TypeOfAny)
  | Instance (type : TypeRef) (args : list MypyType)
  | UnionType (items : list MypyType)
  | CallableType (arg_types : list MypyType) (ret_type : MypyType)
  | NoneType.

(** A function definition of a class body: its owner, the type of its
    first parameter, the rest of the signature, and the names its body
    refers to that are not resolved yet. *)
Record FuncDef : Type := {
  fd_name : string;
  fd_info : string;
  fd_self_type : MypyType;
  fd_arg_types : list MypyType;
  fd_ret_type : MypyType;
  fd_unresolved : list string
}.

Inductive SymbolKind : Type := LDEF | GDEF | MDEF.

Record SymbolTableNodeOf (N : Type) : Type := {
  kind : SymbolKind;
  node : option N;
  plugin_generated : bool
}.
Arguments kind {N} _.
Arguments node {N} _.
Arguments plugin_generated {N} _.

(** One class of a method resolution order. *)
Record ClassBodyOf (S : Type) : Type := {
  cb_fullname : string;
  cb_names : list (string * S)
}.
Arguments cb_fullname {S} _.
Arguments cb_names {S} _.

(** A [TypeInfo]. [ancestors] is [mro] without its first element, which is
    the class itself. *)
Record TypeInfoOf (S : Type) : Type := {
  name : string;
  fullname : string;
  module_name : string;
  bases : list MypyType;
  names : list (string * S);
  ancestors : list (ClassBodyOf S);
  line : nat
}.
Arguments name {S} _.
Arguments fullname {S} _.
Arguments module_name {S} _.
Arguments bases {S} _.
Arguments names {S} _.
Arguments ancestors {S} _.
Arguments line {S} _.

Inductive SymbolNode : Type :=
  | FuncDefNode (f : FuncDef)
  | DecoratorNode (fullname : string)
  | OverloadedFuncDefNode (fullname : string)
  | VarNode (fullname : string)
  | PlaceholderNode (fullname : string)
  | TypeInfoNode (info : TypeInfoOf (SymbolTableNodeOf SymbolNode)).

Definition SymbolTableNode : Type := SymbolTableNodeOf SymbolNode.
Definition SymbolTable : Type := list (string * SymbolTableNode).
Definition ClassBody : Type := ClassBodyOf SymbolTableNode.
Definition TypeInfo : Type := TypeInfoOf SymbolTableNode.

Definition class_body (info : TypeInfo) : ClassBody :=
  {| cb_fullname := fullname info; cb_names := names info |}.

(** [info.mro] *)
Definition mro (info : TypeInfo) : list ClassBody :=
  class_body info :: ancestors info.

(** [info.has_base(fullname)] *)
Definition has_base (info : TypeInfo) (fn : string) : bool :=
  existsb (fun cls => String.eqb (cb_fullname cls) fn) (mro info).

Definition type_ref (info : TypeInfo) : TypeRef :=
  {| ref_name := name info; ref_fullname := fullname info |}.

(** [node.fullname] *)
Definition node_fullname (n : SymbolNode) : string :=
  match n with
  | FuncDefNode f => fd_info f +:+ "." +:+ fd_name f
  | DecoratorNode fn | OverloadedFuncDefNode fn | VarNode fn | PlaceholderNode fn => fn
  | TypeInfoNode info => fullname info
  end.

(** [node.name], the last component of the full name for the nodes that
    are not classes or functions. *)
Definition node_name (n : SymbolNode) : string :=
  match n with
  | FuncDefNode f => fd_name f
  | DecoratorNode fn | OverloadedFuncDefNode fn | VarNode fn | PlaceholderNode fn =>
      (rpartition_dot fn).2
  | TypeInfoNode info => name info
  end.

(** [SymbolTableNode.fullname]: [None] without a node. *)
Definition sym_fullname (sym : SymbolTableNode) : option string :=
  node_fullname <$> node sym.

(** [SymbolTableNode.copy()] builds a node of the same kind for the same
    target; [plugin_generated] is not among the copied attributes. *)
Definition sym_copy (sym : SymbolTableNode) : SymbolTableNode :=
  {| kind := kind sym; node := node sym; plugin_generated := false |}.

(** [fill_typevars(info)] for a class without type variables. *)
Definition fill_typevars (info : TypeInfo) : MypyType := Instance (type_ref info) [].

(** ** Expressions and plugin contexts *)

Inductive Expression : Type :=
  | NameExpr (name : string) (fullname : option string) (node : option SymbolNode)
  | MemberExpr (expr : Expression) (name : string) (node : option SymbolNode)
  | StrExpr (value : string)
  | OtherExpr.

Record CallExpr : Type := {
  callee : Expression;
  call_args : list Expression;
  call_line : nat
}.

Record DynamicClassDefContext : Type := {
  call : CallExpr;
  ctx_name : string
}.

Record MypyFile : Type := {
  mf_fullname : string;
  mf_names : SymbolTable
}.

(** ** The semantic analyzer *)

(** [TypeInfo.metadata] of every class, by the class's full name; a class
    without an entry has the empty dictionary. The values kept under a
    metadata key are dictionaries from strings to strings. *)
Abbreviation Metadata := (gmap string (gmap string (gmap string string))).

(** The state of mypy's [SemanticAnalyzer] that the transformers read and
    write. [api.modules] holds [cur_mod_node], the file under analysis
    whose names are [api.globals], and [other_modules]. [scope_names] is
    the namespace of the enclosing class or function body, absent at
    module level. *)
Record SemanticAnalyzer : Type := {
  final_iteration : bool;
  deferred : bool;
  progress : bool;
  cur_mod_id : string;
  cur_mod_node : MypyFile;
  other_modules : list (string * MypyFile);
  scope_names : option SymbolTable;
  scope_classes : list TypeInfo;
  missing_names : list string;
  typeinfo_metadata : Metadata
}.

Definition set_deferred (b : bool) (api : SemanticAnalyzer) : SemanticAnalyzer :=
  {| final_iteration := final_iteration api; deferred := b; progress := progress api;
     cur_mod_id := cur_mod_id api; cur_mod_node := cur_mod_node api;
     other_modules := other_modules api; scope_names := scope_names api;
     scope_classes := scope_classes api; missing_names := missing_names api;
     typeinfo_metadata := typeinfo_metadata api |}.

Definition set_progress (b : bool) (api : SemanticAnalyzer) : SemanticAnalyzer :=
  {| final_iteration := final_iteration api; deferred := deferred api; progress := b;
     cur_mod_id := cur_mod_id api; cur_mod_node := cur_mod_node api;
     other_modules := other_modules api; scope_names := scope_names api;
     scope_classes := scope_classes api; missing_names := missing_names api;
     typeinfo_metadata := typeinfo_metadata api |}.

Definition set_modules (cur : MypyFile) (others : list (string * MypyFile))
    (api : SemanticAnalyzer) : SemanticAnalyzer :=
  {| final_iteration := final_iteration api; deferred := deferred api;
     progress := progress api; cur_mod_id := cur_mod_id api; cur_mod_node := cur;
     other_modules := others; scope_names := scope_names api;
     scope_classes := scope_classes api; missing_names := missing_names api;
     typeinfo_metadata := typeinfo_metadata api |}.

Definition set_scope_names (t : option SymbolTable) (api : SemanticAnalyzer)
    : SemanticAnalyzer :=
  {| final_iteration := final_iteration api; deferred := deferred api;
     progress := progress api; cur_mod_id := cur_mod_id api;
     cur_mod_node := cur_mod_node api; other_modules := other_modules api;
     scope_names := t; scope_classes := scope_classes api;
     missing_names := missing_names api; typeinfo_metadata := typeinfo_metadata api |}.

Definition set_typeinfo_metadata (md : Metadata) (api : SemanticAnalyzer)
    : SemanticAnalyzer :=
  {| final_iteration := final_iteration api; deferred := deferred api;
     progress := progress api; cur_mod_id := cur_mod_id api;
     cur_mod_node := cur_mod_node api; other_modules := other_modules api;
     scope_names := scope_names api; scope_classes := scope_classes api;
     missing_names := missing_names api; typeinfo_metadata := md |}.

(** [api.globals] *)
Definition globals (api : SemanticAnalyzer) : SymbolTable := mf_names (cur_mod_node api).

(** [api.defer()] *)
Definition defer : M SemanticAnalyzer unit := modify (set_deferred true).

(** A symbol table of the analyzer, named by where it lives, since the
    tables are written through references. *)
Inductive TableRef : Type := GlobalsTable | ScopeTable.

Definition read_table (api : SemanticAnalyzer) (r : TableRef) : SymbolTable :=
  match r with
  | GlobalsTable => globals api
  | ScopeTable => default [] (scope_names api)
  end.

Definition write_table (r : TableRef) (t : SymbolTable) (api : SemanticAnalyzer)
    : SemanticAnalyzer :=
  match r with
  | GlobalsTable =>
      set_modules {| mf_fullname := mf_fullname (cur_mod_node api); mf_names := t |}
        (other_modules api) api
  | ScopeTable => set_scope_names (Some t) api
  end.

(** [api.current_symbol_table(escape_comprehensions)]; comprehension scopes
    are not part of the state. *)
Definition current_symbol_table (api : SemanticAnalyzer) (escape_comprehensions : bool)
    : TableRef :=
  match scope_names api with
  | Some _ => ScopeTable
  | None => GlobalsTable
  end.

(** Run a computation on the metadata store inside the analyzer. *)
Definition with_metadata {A} (m : M Metadata A) : M SemanticAnalyzer A :=
  fun api =>
    let '(r, md) := m (typeinfo_metadata api) in (r, set_typeinfo_metadata md api).

(** What the transformers use of mypy's analyzer and cannot be read off the
    state above: name lookup, which is taken to read the analyzer without
    changing it, and the redefinition checks of [add_symbol_table_node],
    which may change it. *)
Class SemanalHost : Type := {
  lookup_qualified : SemanticAnalyzer -> string -> CallExpr -> option SymbolTableNode;
  lookup_fully_qualified_or_none : SemanticAnalyzer -> string -> option SymbolTableNode;
  is_valid_replacement : SymbolTableNode -> SymbolTableNode -> bool;
  is_same_symbol : option SymbolNode -> option SymbolNode -> bool;
  add_redefinition : TableRef -> string -> SymbolTableNode -> M SemanticAnalyzer unit;
  set_original_def : option SymbolNode -> option SymbolNode -> M SemanticAnalyzer bool;
  name_already_defined : string -> CallExpr -> SymbolTableNode -> M SemanticAnalyzer unit
}.

(** [mypy_django_plugin.lib.fullnames] *)
Class Fullnames : Type := {
  QUERYSET_CLASS_FULLNAME : string;
  MANAGER_CLASS_FULLNAME : string;
  MODEL_CLASS_FULLNAME : string
}.

(** ** Helpers of [mypy_django_plugin.lib] *)

(** Modelled from the spec: [helpers.new_typeinfo] is not among the
    sources. "Build a new class symbol whose base class list is exactly
    [resolved manager instance type]"; the class is new, so it has no
    members yet, and its identity is its fully-qualified name in the given
    module. Its method resolution order is not described and is never read
    by the transformers; it is left empty after the class itself. *)
Definition new_typeinfo (new_name : string) (new_bases : list MypyType)
    (new_module_name : string) : TypeInfo :=
  {| name := new_name;
     fullname := new_module_name +:+ "." +:+ new_name;
     module_name := new_module_name;
     bases := new_bases;
     names := [];
     ancestors := [];
     line := 0 |}.

(** [info.set_line(call)] *)
Definition set_line (info : TypeInfo) (target : CallExpr) : TypeInfo :=
  {| name := name info; fullname := fullname info; module_name := module_name info;
     bases := bases info; names := names info; ancestors := ancestors info;
     line := call_line target |}.

Definition set_names (info : TypeInfo) (t : SymbolTable) : TypeInfo :=
  {| name := name info; fullname := fullname info; module_name := module_name info;
     bases := bases info; names := t; ancestors := ancestors info;
     line := line info |}.

(** The method that a copy of [method_node] under [new_method_name] puts on
    the class [cls]: the same signature, owned by [cls], its first
    parameter typed [self_type]. *)
Definition copied_method (cls : TypeInfo) (self_type : MypyType)
    (new_method_name : string) (method_node : FuncDef) : SymbolTableNode :=
  {| kind := MDEF;
     node := Some (FuncDefNode
       {| fd_name := new_method_name;
          fd_info := fullname cls;
          fd_self_type := self_type;
          fd_arg_types := fd_arg_types method_node;
          fd_ret_type := fd_ret_type method_node;
          fd_unresolved := [] |});
     plugin_generated := true |}.

(** Modelled from the spec: [sem_helpers.copy_method_or_incomplete_defn_exception]
    is not among the sources. "Copy each onto the new class, rebinding its
    self-parameter to the new class's own instantiated type. Copying a
    method whose body references not-yet-resolved names must itself raise
    the incomplete-definition condition." The class under construction is
    returned with the method added. *)
Definition copy_method_or_incomplete_defn_exception (cls : TypeInfo)
    (self_type : MypyType) (new_method_name : string) (method_node : FuncDef)
    : result TypeInfo :=
  match fd_unresolved method_node with
  | [] =>
      Return (set_names cls
                (dict_set (names cls) new_method_name
                   (copied_method cls self_type new_method_name method_node)))
  | _ :: _ =>
      Raise (IncompleteDefnException
               ("Unresolved names in method " +:+ repr (fd_name method_node)))
  end.

Definition is_PlaceholderNode (n : option SymbolNode) : bool :=
  match n with
  | Some (PlaceholderNode _) => true
  | _ => false
  end.

(** ** [transformers/managers.py] *)

Section managers.
Context {fullnames : Fullnames} {host : SemanalHost}.

(** The function definitions of one class body, in the order of its
    [names]. *)
Definition class_funcdefs (base_queryset_info : ClassBody) : list (string * FuncDef) :=
  flat_map
    (fun '(sym_name, sym) =>
       match node sym with
       | Some (FuncDefNode method_node) => [(sym_name, method_node)]
       | _ => []
       end)
    (cb_names base_queryset_info).

Fixpoint iter_custom_methods_of_mro (classes : list ClassBody) : list (string * FuncDef) :=
  match classes with
  | [] => []
  | base_queryset_info :: rest =>
      if String.eqb (cb_fullname base_queryset_info) QUERYSET_CLASS_FULLNAME then []
      else class_funcdefs base_queryset_info ++ iter_custom_methods_of_mro rest
  end.

(** The sequence that the generator yields. *)
Definition iter_all_custom_queryset_methods (derived_queryset_info : TypeInfo)
    : list (string * FuncDef) :=
  iter_custom_methods_of_mro (mro derived_queryset_info).

Definition generate_from_queryset_name (base_manager_info queryset_info : TypeInfo)
    : string :=
  name base_manager_info +:+ "From" +:+ name queryset_info.

(** When the node is [None], the message of the exception reads
    [callee_info.fullname], which fails with [AttributeError] before the
    exception is built. *)
Definition resolve_callee_info_or_exception (ctx : DynamicClassDefContext)
    : M SemanticAnalyzer TypeInfo :=
  match callee (call ctx) with
  | MemberExpr callee_expr _ _ =>
      match callee_expr with
      | NameExpr _ _ callee_info | MemberExpr _ _ callee_info =>
          match callee_info with
          | None => raise AttributeError
          | Some (PlaceholderNode placeholder_fullname) =>
              raise (IncompleteDefnException
                       ("Definition of base manager " +:+ placeholder_fullname
                          +:+ " is incomplete."))
          | Some (TypeInfoNode info) => ret info
          | Some _ => raise AssertionError
          end
      | _ => raise AssertionError
      end
  | _ => raise AssertionError
  end.

Definition resolve_passed_queryset_info_or_exception (ctx : DynamicClassDefContext)
    : M SemanticAnalyzer TypeInfo :=
  match call_args (call ctx) with
  | [] => raise IndexError
  | passed_queryset_name_expr :: _ =>
      match passed_queryset_name_expr with
      | NameExpr passed_name passed_fullname _ =>
          let* api := get in
          match lookup_qualified api passed_name (call ctx) with
          | None => raise (BoundNameNotFound passed_fullname)
          | Some sym =>
              match node sym with
              | None => raise (BoundNameNotFound passed_fullname)
              | Some (PlaceholderNode _) => raise (BoundNameNotFound passed_fullname)
              | Some (TypeInfoNode info) => ret info
              | Some _ => raise AssertionError
              end
          end
      | _ => raise AssertionError
      end
  end.

Definition resolve_django_manager_info_or_exception (ctx : DynamicClassDefContext)
    : M SemanticAnalyzer TypeInfo :=
  let* api := get in
  match lookup_fully_qualified_or_none api MANAGER_CLASS_FULLNAME with
  | None => raise (BoundNameNotFound (Some MANAGER_CLASS_FULLNAME))
  | Some sym =>
      match node sym with
      | None => raise (BoundNameNotFound (Some MANAGER_CLASS_FULLNAME))
      | Some (PlaceholderNode _) => raise (BoundNameNotFound (Some MANAGER_CLASS_FULLNAME))
      | Some (TypeInfoNode info) => ret info
      | Some _ => raise AssertionError
      end
  end.

Definition new_manager_typeinfo (ctx : DynamicClassDefContext)
    (callee_manager_info : TypeInfo) : M SemanticAnalyzer TypeInfo :=
  let callee_manager_type := Instance (type_ref callee_manager_info) [AnyType unannotated] in
  let* api := get in
  let new_manager_class_name := ctx_name ctx in
  let new_manager_info :=
    new_typeinfo new_manager_class_name [callee_manager_type] (cur_mod_id api) in
  ret (set_line new_manager_info (call ctx)).

Definition get_generated_manager_fullname (target : CallExpr)
    (base_manager_info queryset_info : TypeInfo) : result string :=
  let custom_manager_generated_name :=
    match call_args target with
    | _ :: expr :: _ =>
        match expr with
        | StrExpr value => Return value
        | _ => Raise AssertionError
        end
    | _ => Return (name base_manager_info +:+ "From" +:+ name queryset_info)
    end in
  match custom_manager_generated_name with
  | Return generated_name => Return ("django.db.models.manager" +:+ "." +:+ generated_name)
  | Raise e => Raise e
  end.

(** [info.metadata.setdefault('from_queryset_managers', {})]. The
    dictionary is returned by reference: [set_generated_manager] is the
    assignment through that reference. *)
Definition get_generated_managers_metadata (django_manager_info : TypeInfo)
    : M Metadata (gmap string string) :=
  fun md =>
    let info_metadata := default ∅ (md !! fullname django_manager_info) in
    match info_metadata !! "from_queryset_managers" with
    | Some managers => (Return managers, md)
    | None =>
        (Return ∅,
         <[fullname django_manager_info :=
             <["from_queryset_managers" := ∅]> info_metadata]> md)
    end.

Definition set_generated_manager (django_manager_info : TypeInfo)
    (key value : string) : M Metadata unit :=
  modify (fun md =>
    let info_metadata := default ∅ (md !! fullname django_manager_info) in
    let managers := default ∅ (info_metadata !! "from_queryset_managers") in
    <[fullname django_manager_info :=
        <["from_queryset_managers" := <[key := value]> managers]> info_metadata]> md).

Definition record_new_manager_info_fullname_into_metadata
    (ctx : DynamicClassDefContext) (new_manager_fullname : string)
    (callee_manager_info queryset_info django_manager_info : TypeInfo)
    : M SemanticAnalyzer unit :=
  match get_generated_manager_fullname (call ctx) callee_manager_info queryset_info with
  | Raise e => raise e
  | Return custom_manager_generated_fullname =>
      with_metadata
        (let* _ := get_generated_managers_metadata django_manager_info in
         set_generated_manager django_manager_info
           custom_manager_generated_fullname new_manager_fullname)
  end.

(** The [try] blocks of the two entry points:
    [except IncompleteDefnException] defers and returns unless the
    analyzer is on its final iteration, where the exception is raised
    again; any other exception passes through. [rest] is the code after
    the block. *)
Definition try_except_IncompleteDefnException {A} (body : M SemanticAnalyzer A)
    (rest : A -> M SemanticAnalyzer unit) : M SemanticAnalyzer unit :=
  fun api =>
    match body api with
    | (Return a, api') => rest a api'
    | (Raise (IncompleteDefnException error_message), api') =>
        if negb (final_iteration api') then (do defer then ret tt) api'
        else (Raise (IncompleteDefnException error_message), api')
    | (Raise e, api') => (Raise e, api')
    end.

(** The loop that copies the queryset's methods onto the new class. *)
Fixpoint copy_methods (new_manager_info : TypeInfo) (self_type : MypyType)
    (methods : list (string * FuncDef)) : result TypeInfo :=
  match methods with
  | [] => Return new_manager_info
  | (method_name, method_node) :: rest =>
      match copy_method_or_incomplete_defn_exception new_manager_info self_type
              method_name method_node with
      | Return new_manager_info' => copy_methods new_manager_info' self_type rest
      | Raise e => Raise e
      end
  end.

Definition copy_all_custom_queryset_methods (new_manager_info : TypeInfo)
    (self_type : MypyType) (queryset_info : TypeInfo) : M SemanticAnalyzer TypeInfo :=
  match copy_methods new_manager_info self_type
          (iter_all_custom_queryset_methods queryset_info) with
  | Return info => ret info
  | Raise e => raise e
  end.

(** [symbol_table or api.current_symbol_table(escape_comprehensions)]: an
    empty table is false in Python. *)
Definition symbol_table_or_current (api : SemanticAnalyzer)
    (symbol_table : option TableRef) (escape_comprehensions : bool) : TableRef :=
  match symbol_table with
  | Some table =>
      match read_table api table with
      | [] => current_symbol_table api escape_comprehensions
      | _ :: _ => table
      end
  | None => current_symbol_table api escape_comprehensions
  end.

Definition add_symbol_table_node (sym_name : string) (symbol : SymbolTableNode)
    (context : option CallExpr) (symbol_table : option TableRef)
    (can_defer escape_comprehensions : bool) : M SemanticAnalyzer bool :=
  let* api := get in
  let names_ref := symbol_table_or_current api symbol_table escape_comprehensions in
  let existing := dict_get (read_table api names_ref) sym_name in
  do (if is_PlaceholderNode (node symbol) && can_defer then defer else ret tt) then
  let add_unless_missing : M SemanticAnalyzer bool :=
    let* api := get in
    if bool_decide (sym_name ∉ missing_names api)
       && bool_decide ("*" ∉ missing_names api)
    then
      do modify (write_table names_ref
                   (dict_set (read_table api names_ref) sym_name symbol)) then
      do modify (set_progress true) then
      ret true
    else ret false in
  match existing, context with
  | Some existing_sym, Some context_node =>
      if negb (is_valid_replacement existing_sym symbol) then
        let old := node existing_sym in
        let new := node symbol in
        if is_PlaceholderNode new then ret false
        else
          do (if negb (is_same_symbol old new) then
                do (match new with
                    | Some (FuncDefNode _) | Some (DecoratorNode _)
                    | Some (OverloadedFuncDefNode _) | Some (TypeInfoNode _) =>
                        add_redefinition names_ref sym_name symbol
                    | _ => ret tt
                    end) then
                let* original_set :=
                  match new with
                  | Some (FuncDefNode _) | Some (DecoratorNode _) =>
                      set_original_def old new
                  | _ => ret false
                  end in
                if negb original_set
                then name_already_defined sym_name context_node existing_sym
                else ret tt
              else ret tt) then
          ret false
      else add_unless_missing
  | _, _ => add_unless_missing
  end.

(** The inner loop over [module.names.items()]. *)
Definition repoint_names (new_manager_info : TypeInfo)
    (new_manager_sym : SymbolTableNode) (module_names : SymbolTable) : SymbolTable :=
  fold_left
    (fun current '(sym_name, sym) =>
       match sym_fullname sym with
       | Some sym_fn =>
           if String.eqb sym_fn (fullname new_manager_info)
           then dict_set current sym_name (sym_copy new_manager_sym)
           else current
       | None => current
       end)
    module_names module_names.

Definition repoint_module (current_id : string) (new_manager_info : TypeInfo)
    (new_manager_sym : SymbolTableNode) (module : MypyFile) : MypyFile :=
  if negb (String.eqb (mf_fullname module) current_id) then
    {| mf_fullname := mf_fullname module;
       mf_names := repoint_names new_manager_info new_manager_sym (mf_names module) |}
  else module.

(** The loop over [semanal_api.modules.items()]. *)
Definition references_replaced (new_manager_info : TypeInfo)
    (new_manager_sym : SymbolTableNode) (api : SemanticAnalyzer) : SemanticAnalyzer :=
  let repoint := repoint_module (cur_mod_id api) new_manager_info new_manager_sym in
  set_modules (repoint (cur_mod_node api))
    (map (fun '(module_id, module) => (module_id, repoint module)) (other_modules api))
    api.

Definition replace_all_references (new_manager_info : TypeInfo)
    (new_manager_sym : SymbolTableNode) : M SemanticAnalyzer unit :=
  modify (references_replaced new_manager_info new_manager_sym).

(** What both entry points do with the finished class: the insertion with
    [context=None], the sweep over the modules, and the request for
    another iteration. [insert] is the call that adds the symbol. *)
Definition publish_manager (new_manager_info : TypeInfo)
    (insert : SymbolTableNode -> M SemanticAnalyzer bool) : M SemanticAnalyzer unit :=
  let new_manager_sym : SymbolTableNode :=
    {| kind := GDEF; node := Some (TypeInfoNode new_manager_info);
       plugin_generated := true |} in
  let* added := insert new_manager_sym in
  do (if added : bool then replace_all_references new_manager_info new_manager_sym
      else ret tt) then
  let* api := get in
  if negb added && negb (final_iteration api) then defer else ret tt.

(** The body of the first [try] of [from_queryset]. *)
Definition resolve_from_queryset (ctx : DynamicClassDefContext)
    : M SemanticAnalyzer (TypeInfo * TypeInfo * TypeInfo) :=
  let* callee_manager_info := resolve_callee_info_or_exception ctx in
  let* queryset_info := resolve_passed_queryset_info_or_exception ctx in
  let* django_manager_info := resolve_django_manager_info_or_exception ctx in
  ret (callee_manager_info, queryset_info, django_manager_info).

(** [semanal_api.add_symbol_table_node] is the analyzer's own method; the
    function of the same name above is its copy with the table as an
    argument, and stands for it on the current symbol table. *)
Definition create_new_manager_class_from_from_queryset_method
    (ctx : DynamicClassDefContext) : M SemanticAnalyzer unit :=
  try_except_IncompleteDefnException (resolve_from_queryset ctx)
    (fun '(callee_manager_info, queryset_info, django_manager_info) =>
       let* new_manager_info := new_manager_typeinfo ctx callee_manager_info in
       do record_new_manager_info_fullname_into_metadata ctx
            (fullname new_manager_info)
            callee_manager_info queryset_info django_manager_info then
       let self_type := fill_typevars new_manager_info in
       try_except_IncompleteDefnException
         (copy_all_custom_queryset_methods new_manager_info self_type queryset_info)
         (fun new_manager_info =>
            publish_manager new_manager_info
              (fun new_manager_sym =>
                 add_symbol_table_node (ctx_name ctx) new_manager_sym
                   None None true false))).

(** The body of the first [try] of [as_manager]. *)
Definition resolve_as_manager (ctx : DynamicClassDefContext)
    : M SemanticAnalyzer (TypeInfo * TypeInfo) :=
  let* queryset_info := resolve_callee_info_or_exception ctx in
  let* django_manager_info := resolve_django_manager_info_or_exception ctx in
  ret (queryset_info, django_manager_info).

(** [generic_param] and [generic_param_name] *)
Definition as_manager_generic_param (api : SemanticAnalyzer) : MypyType * string :=
  match last (scope_classes api) with
  | Some info =>
      if has_base info MODEL_CLASS_FULLNAME
      then (Instance (type_ref info) [], name info)
      else (AnyType explicit, "Any")
  | None => (AnyType explicit, "Any")
  end.

(** The name and the class that [as_manager] builds before anything is
    recorded. *)
Definition as_manager_typeinfo (ctx : DynamicClassDefContext)
    (queryset_info django_manager_info : TypeInfo)
    : M SemanticAnalyzer (string * TypeInfo) :=
  let* api := get in
  let '(generic_param, generic_param_name) := as_manager_generic_param api in
  let new_manager_class_name :=
    name queryset_info +:+ "_AsManager_" +:+ generic_param_name in
  let new_manager_info :=
    new_typeinfo new_manager_class_name
      [Instance (type_ref django_manager_info) [generic_param]]
      (cur_mod_id api) in
  ret (new_manager_class_name, set_line new_manager_info (call ctx)).

Definition create_manager_class_from_as_manager_method
    (ctx : DynamicClassDefContext) : M SemanticAnalyzer unit :=
  try_except_IncompleteDefnException (resolve_as_manager ctx)
    (fun '(queryset_info, django_manager_info) =>
       let* (new_manager_class_name, new_manager_info) :=
         as_manager_typeinfo ctx queryset_info django_manager_info in
       do record_new_manager_info_fullname_into_metadata ctx
            (fullname new_manager_info)
            django_manager_info queryset_info django_manager_info then
       let self_type := fill_typevars new_manager_info in
       try_except_IncompleteDefnException
         (copy_all_custom_queryset_methods new_manager_info self_type queryset_info)
         (fun new_manager_info =>
            publish_manager new_manager_info
              (fun new_manager_sym =>
                 add_symbol_table_node new_manager_class_name new_manager_sym
                   None (Some GlobalsTable) true false))).
End managers.

(** ** The type checker *)

(** The state of mypy's [TypeChecker] that the hooks read and write: the
    metadata of the classes, which are the objects the analyzer left, the
    modules, and the file being checked. *)
Record TypeChecker : Type := {
  tc_typeinfo_metadata : Metadata;
  tc_modules : list (string * MypyFile);
  tc_tree : MypyFile
}.

(** What the hooks use of the checker through helpers that are not among
    the sources ([helpers.lookup_fully_qualified_typeinfo],
    [helpers.get_current_module]), and the class that an [Instance] points
    to. *)
Class CheckerHost : Type := {
  lookup_fully_qualified_typeinfo : TypeChecker -> string -> option TypeInfo;
  get_current_module : TypeChecker -> MypyFile;
  instance_type : TypeChecker -> TypeRef -> TypeInfo
}.

Definition with_checker_metadata {A} (m : M Metadata A) : M TypeChecker A :=
  fun api =>
    let '(r, md) := m (tc_typeinfo_metadata api) in
    (r, {| tc_typeinfo_metadata := md; tc_modules := tc_modules api;
           tc_tree := tc_tree api |}).

Record MethodContext : Type := {
  mc_type : MypyType;
  mc_context : CallExpr
}.

(** The class reference of [Instance(node, [])] for whatever node a symbol
    holds. *)
Definition node_ref (n : option SymbolNode) : TypeRef :=
  match n with
  | Some (TypeInfoNode info) => type_ref info
  | Some other => {| ref_name := node_name other; ref_fullname := node_fullname other |}
  | None => {| ref_name := ""; ref_fullname := "" |}
  end.

Section resolver.
Context {fullnames : Fullnames} {checker : CheckerHost}.

Definition instantiate_anonymous_queryset_from_as_manager (ctx : MethodContext)
    : M TypeChecker MypyType :=
  let* api := get in
  match lookup_fully_qualified_typeinfo api MANAGER_CLASS_FULLNAME with
  | None => raise AssertionError
  | Some django_manager_info =>
      match mc_type ctx with
      | CallableType _ (Instance queryset_ref _) =>
          let queryset_info := instance_type api queryset_ref in
          match get_generated_manager_fullname (mc_context ctx)
                  django_manager_info queryset_info with
          | Raise e => raise e
          | Return generated_fullname =>
              let* metadata :=
                with_checker_metadata
                  (get_generated_managers_metadata django_manager_info) in
              match metadata !! generated_fullname with
              | None =>
                  raise (ValueError (repr generated_fullname
                           +:+ " is not present in generated managers list"))
              | Some recorded =>
                  let '(recorded_module_name, _, class_name) := rpartition_dot recorded in
                  let* api := get in
                  let current_module := get_current_module api in
                  do assert (String.eqb recorded_module_name
                               (mf_fullname current_module)) then
                  match dict_get (mf_names current_module) class_name with
                  | None => raise (KeyError class_name)
                  | Some sym => ret (Instance (node_ref (node sym)) [])
                  end
              end
          end
      | _ => raise AssertionError
      end
  end.
End resolver.

(** ** [transformers/request.py] *)

Definition TypeRef_eqb (a b : TypeRef) : bool :=
  String.eqb (ref_name a) (ref_name b) && String.eqb (ref_fullname a) (ref_fullname b).

(** [==] on mypy's types: an [Instance] equals an [Instance] of the same
    class with equal arguments, any two [AnyType] are equal, and two unions
    are equal when they have the same set of items. *)
Fixpoint MypyType_eqb (a b : MypyType) {struct a} : bool :=
  match a, b with
  | AnyType _, AnyType _ => true
  | Instance type_a args_a, Instance type_b args_b =>
      TypeRef_eqb type_a type_b
      && (fix args_eqb (l1 l2 : list MypyType) {struct l1} : bool :=
            match l1, l2 with
            | [], [] => true
            | x :: l1', y :: l2' => MypyType_eqb x y && args_eqb l1' l2'
            | _, _ => false
            end) args_a args_b
  | UnionType items_a, UnionType items_b =>
      forallb (fun x => existsb (fun y => MypyType_eqb x y) items_b) items_a
      && forallb (fun y => existsb (fun x => MypyType_eqb x y) items_a) items_b
  | CallableType arg_types_a ret_a, CallableType arg_types_b ret_b =>
      MypyType_eqb ret_a ret_b
      && (fix args_eqb (l1 l2 : list MypyType) {struct l1} : bool :=
            match l1, l2 with
            | [], [] => true
            | x :: l1', y :: l2' => MypyType_eqb x y && args_eqb l1' l2'
            | _, _ => false
            end) arg_types_a arg_types_b
  | NoneType, NoneType => true
  | _, _ => false
  end.

Record AttributeContext : Type := {
  default_attr_type : MypyType
}.

Section request.
(** The classes of the running Django project. *)
Context {Class_ : Type}.

Record DjangoContext : Type := {
  AUTH_USER_MODEL : string;
  get_model : string -> result Class_
}.

(** [django.contrib.auth.base_user.AbstractBaseUser],
    [django.contrib.auth.models.AnonymousUser], and
    [helpers.lookup_class_typeinfo], which is not among the sources. *)
Variables AbstractBaseUser AnonymousUser : Class_.
Variable lookup_class_typeinfo : TypeChecker -> Class_ -> option TypeInfo.

Definition set_auth_user_model_as_type_for_request_user (ctx : AttributeContext)
    (django_context : DjangoContext) : M TypeChecker MypyType :=
  let* api := get in
  let abstract_base_user_info := lookup_class_typeinfo api AbstractBaseUser in
  let anonymous_user_info := lookup_class_typeinfo api AnonymousUser in
  match abstract_base_user_info, anonymous_user_info with
  | Some abstract_base_user_info, Some anonymous_user_info =>
      if negb (MypyType_eqb (default_attr_type ctx)
                 (UnionType [Instance (type_ref abstract_base_user_info) [];
                             Instance (type_ref anonymous_user_info) []]))
      then ret (default_attr_type ctx)
      else
        let auth_user_model := AUTH_USER_MODEL django_context in
        match get_model django_context auth_user_model with
        | Raise e => raise e
        | Return model_cls =>
            let model_info := lookup_class_typeinfo api model_cls in
            match model_info with
            | None => ret (default_attr_type ctx)
            | Some _ => raise (NameError "user_info")
            end
        end
  | _, _ => raise AssertionError
  end.
End request.


(** ** One step of the sweep *)

(** The body of the inner loop of the sweep over [module.names.items()],
    as a function of the table so far and the item. *)
Definition repoint_step (new_manager_info : TypeInfo)
    (new_manager_sym : SymbolTableNode) (current : SymbolTable)
    (item : string * SymbolTableNode) : SymbolTable :=
  match sym_fullname item.2 with
  | Some sym_fn =>
      if String.eqb sym_fn (fullname new_manager_info)
      then dict_set current item.1 (sym_copy new_manager_sym)
      else current
  | None => current
  end.

(** ** The registry as its readers see it *)

(** The full name recorded under [key] on the metadata of
    [django_manager_info], read the way the return-type resolver reads it:
    the dictionary under ['from_queryset_managers'], then the key. *)
Definition registry_lookup (md : Metadata) (django_manager_info : TypeInfo)
    (key : string) : option string :=
  managers ← default ∅ (md !! fullname django_manager_info) !! "from_queryset_managers";
  managers !! key.

(** The metadata after [key] is bound to [value] in that dictionary. *)
Definition registry_record (django_manager_info : TypeInfo) (key value : string)
    (md : Metadata) : Metadata :=
  let info_metadata := default ∅ (md !! fullname django_manager_info) in
  let managers := default ∅ (info_metadata !! "from_queryset_managers") in
  <[fullname django_manager_info :=
      <["from_queryset_managers" := <[key := value]> managers]> info_metadata]> md.

(** The second positional argument of a call, the explicit name of
    [from_queryset]. *)
Definition explicit_name_argument (target : CallExpr) : option Expression :=
  call_args target !! 1.

(** The symbol under which the entry points publish a finished class. *)
Definition manager_symbol (new_manager_info : TypeInfo) : SymbolTableNode :=
  {| kind := GDEF; node := Some (TypeInfoNode new_manager_info);
     plugin_generated := true |}.

(** ** A small project *)

Module example.

#[export] Instance django : Fullnames := {|
  QUERYSET_CLASS_FULLNAME := "django.db.models.query.QuerySet";
  MANAGER_CLASS_FULLNAME := "django.db.models.manager.Manager";
  MODEL_CLASS_FULLNAME := "django.db.models.base.Model"
|}.

(** An analyzer that looks a name up in the enclosing scope and then in
    the globals, and a qualified name in the module named by its prefix. *)
#[export] Instance analyzer : SemanalHost := {|
  lookup_qualified api short_name _ :=
    match scope_names api ≫= (fun t => dict_get t short_name) with
    | Some sym => Some sym
    | None => dict_get (globals api) short_name
    end;
  lookup_fully_qualified_or_none api qualified :=
    let '(module_id, _, short_name) := rpartition_dot qualified in
    if String.eqb module_id (cur_mod_id api) then dict_get (globals api) short_name
    else dict_get (other_modules api) module_id
           ≫= (fun module => dict_get (mf_names module) short_name);
  is_valid_replacement _ _ := false;
  is_same_symbol _ _ := false;
  add_redefinition _ _ _ := ret tt;
  set_original_def _ _ := ret false;
  name_already_defined _ _ _ := ret tt
|}.

Definition class_symbol (info : TypeInfo) : SymbolTableNode :=
  {| kind := GDEF; node := Some (TypeInfoNode info); plugin_generated := false |}.

Definition method (owner method_name : string) (unresolved : list string)
    : string * SymbolTableNode :=
  (method_name,
   {| kind := MDEF;
      node := Some (FuncDefNode
        {| fd_name := method_name; fd_info := owner;
           fd_self_type := Instance {| ref_name := (rpartition_dot owner).2;
                                       ref_fullname := owner |} [];
           fd_arg_types := []; fd_ret_type := AnyType unannotated;
           fd_unresolved := unresolved |});
      plugin_generated := false |}).

Definition object_body : ClassBody :=
  {| cb_fullname := "builtins.object"; cb_names := [] |}.

Definition QuerySet_body : ClassBody :=
  {| cb_fullname := "django.db.models.query.QuerySet";
     cb_names := [method "django.db.models.query.QuerySet" "filter" [];
                  method "django.db.models.query.QuerySet" "all" []] |}.

Definition Manager : TypeInfo :=
  {| name := "Manager"; fullname := "django.db.models.manager.Manager";
     module_name := "django.db.models.manager"; bases := [];
     names := [method "django.db.models.manager.Manager" "get_queryset" []];
     ancestors := [object_body]; line := 1 |}.

(** [class BaseQ(QuerySet)] with a method [recent]. *)
Definition BaseQ_body : ClassBody :=
  {| cb_fullname := "app.models.BaseQ";
     cb_names := [method "app.models.BaseQ" "recent" []] |}.

(** [class Q(BaseQ)] with a method [active], a decorated [count] and an
    attribute. *)
Definition Q_with (unresolved : list string) : TypeInfo :=
  {| name := "Q"; fullname := "app.models.Q"; module_name := "app.models";
     bases := [Instance {| ref_name := "BaseQ"; ref_fullname := "app.models.BaseQ" |} []];
     names := [method "app.models.Q" "active" unresolved;
               ("count", {| kind := MDEF;
                            node := Some (DecoratorNode "app.models.Q.count");
                            plugin_generated := false |});
               ("label", {| kind := MDEF; node := Some (VarNode "app.models.Q.label");
                            plugin_generated := false |})];
     ancestors := [BaseQ_body; QuerySet_body; object_body]; line := 3 |}.

Definition Q_class : TypeInfo := Q_with [].

(** [Q] while the annotation of [active] refers to a class that is not
    analyzed yet. *)
Definition Q_pending : TypeInfo := Q_with ["Later"].

Definition M_class : TypeInfo :=
  {| name := "M"; fullname := "app.models.M"; module_name := "app.models";
     bases := [Instance (type_ref Manager) [AnyType explicit]];
     names := []; ancestors := [class_body Manager; object_body]; line := 7 |}.

Definition Model_body : ClassBody :=
  {| cb_fullname := "django.db.models.base.Model"; cb_names := [] |}.

(** [class Article(models.Model)] *)
Definition Article : TypeInfo :=
  {| name := "Article"; fullname := "app.models.Article"; module_name := "app.models";
     bases := []; names := []; ancestors := [Model_body; object_body]; line := 12 |}.

Definition manager_module : MypyFile :=
  {| mf_fullname := "django.db.models.manager";
     mf_names := [("Manager", class_symbol Manager)] |}.

(** A module that imported [NewManager] from [app.models] on an earlier
    pass. *)
Definition stale_NewManager : TypeInfo :=
  new_typeinfo "NewManager" [Instance (type_ref M_class) [AnyType unannotated]] "app.models".

Definition views_module : MypyFile :=
  {| mf_fullname := "app.views";
     mf_names := [("render", {| kind := GDEF; node := Some (VarNode "app.views.render");
                                plugin_generated := false |});
                  ("NewManager", class_symbol stale_NewManager)] |}.

Definition models_module (queryset : SymbolTableNode) : MypyFile :=
  {| mf_fullname := "app.models";
     mf_names := [("M", class_symbol M_class); ("Q", queryset)] |}.

(** The analyzer at [NewManager = M.from_queryset(Q)] in [app.models]. *)
Definition api_with (queryset : SymbolTableNode) (final : bool) (missing : list string)
    : SemanticAnalyzer :=
  {| final_iteration := final; deferred := false; progress := false;
     cur_mod_id := "app.models"; cur_mod_node := models_module queryset;
     other_modules := [("django.db.models.manager", manager_module);
                       ("app.views", views_module)];
     scope_names := None; scope_classes := []; missing_names := missing;
     typeinfo_metadata := ∅ |}.

Definition api0 : SemanticAnalyzer := api_with (class_symbol Q_class) false [].

Definition M_expr : Expression :=
  NameExpr "M" (Some "app.models.M") (Some (TypeInfoNode M_class)).

Definition Q_expr (queryset : TypeInfo) : Expression :=
  NameExpr "Q" (Some "app.models.Q") (Some (TypeInfoNode queryset)).

(** [NewManager = M.from_queryset(Q)] *)
Definition from_queryset_ctx : DynamicClassDefContext :=
  {| call := {| callee := MemberExpr M_expr "from_queryset" None;
                call_args := [Q_expr Q_class]; call_line := 20 |};
     ctx_name := "NewManager" |}.

(** The same call while [M] is only a placeholder. *)
Definition placeholder_callee_ctx : DynamicClassDefContext :=
  {| call := {| callee :=
                  MemberExpr
                    (NameExpr "M" (Some "app.models.M")
                       (Some (PlaceholderNode "app.models.M")))
                    "from_queryset" None;
                call_args := [Q_expr Q_class]; call_line := 20 |};
     ctx_name := "NewManager" |}.

(** [objects = Q.as_manager()] *)
Definition as_manager_ctx (queryset : TypeInfo) : DynamicClassDefContext :=
  {| call := {| callee := MemberExpr (Q_expr queryset) "as_manager" None;
                call_args := []; call_line := 14 |};
     ctx_name := "objects" |}.

(** The same call while [Q] is still incomplete. *)
Definition api_pending : SemanticAnalyzer := api_with (class_symbol Q_pending) false [].

(** The same call while [Q] is only a placeholder in the symbol table. *)
Definition placeholder_symbol : SymbolTableNode :=
  {| kind := GDEF; node := Some (PlaceholderNode "app.models.Q");
     plugin_generated := false |}.

Definition api_placeholder : SemanticAnalyzer := api_with placeholder_symbol false [].

(** The same call when the analyzer has [NewManager] among its missing
    names. *)
Definition api_missing (final : bool) : SemanticAnalyzer :=
  api_with (class_symbol Q_class) final ["NewManager"].

(** The class of [NewManager], before and after the copy of the methods,
    and the analyzer after the registry entry is written. *)
Definition NewManager_new : TypeInfo :=
  set_line
    (new_typeinfo "NewManager" [Instance (type_ref M_class) [AnyType unannotated]]
       "app.models")
    (call from_queryset_ctx).

Definition NewManager_finished : TypeInfo :=
  set_names NewManager_new
    [("active", copied_method NewManager_new (fill_typevars NewManager_new) "active"
                  {| fd_name := "active"; fd_info := "app.models.Q";
                     fd_self_type := AnyType explicit; fd_arg_types := [];
                     fd_ret_type := AnyType unannotated; fd_unresolved := [] |});
     ("recent", copied_method NewManager_new (fill_typevars NewManager_new) "recent"
                  {| fd_name := "recent"; fd_info := "app.models.BaseQ";
                     fd_self_type := AnyType explicit; fd_arg_types := [];
                     fd_ret_type := AnyType unannotated; fd_unresolved := [] |})].

Definition recorded (api : SemanticAnalyzer) : SemanticAnalyzer :=
  set_typeinfo_metadata
    (registry_record Manager "django.db.models.manager.MFromQ" "app.models.NewManager"
       (typeinfo_metadata api))
    api.

(** [objects = Q.as_manager()] inside [class Article(models.Model)]. *)
Definition api_in_Article : SemanticAnalyzer :=
  {| final_iteration := false; deferred := false; progress := false;
     cur_mod_id := "app.models"; cur_mod_node := models_module (class_symbol Q_class);
     other_modules := [("django.db.models.manager", manager_module);
                       ("app.views", views_module)];
     scope_names := None; scope_classes := [Article]; missing_names := [];
     typeinfo_metadata := ∅ |}.

(** The type checker over what the analyzer left, checking the file that
    was analyzed. *)
Definition checker_after (api : SemanticAnalyzer) : TypeChecker :=
  {| tc_typeinfo_metadata := typeinfo_metadata api;
     tc_modules := (cur_mod_id api, cur_mod_node api) :: other_modules api;
     tc_tree := cur_mod_node api |}.

Definition lookup_typeinfo (api : TypeChecker) (qualified : string) : option TypeInfo :=
  let '(module_id, _, short_name) := rpartition_dot qualified in
  module ← dict_get (tc_modules api) module_id;
  sym ← dict_get (mf_names module) short_name;
  match node sym with
  | Some (TypeInfoNode info) => Some info
  | _ => None
  end.

#[export] Instance checker : CheckerHost := {|
  lookup_fully_qualified_typeinfo := lookup_typeinfo;
  get_current_module := tc_tree;
  instance_type api ref :=
    default
      {| name := ref_name ref; fullname := ref_fullname ref; module_name := "";
         bases := []; names := []; ancestors := []; line := 0 |}
      (lookup_typeinfo api (ref_fullname ref))
|}.

(** The call [Q.as_manager()] as the checker sees it. *)
Definition as_manager_call : MethodContext :=
  {| mc_type := CallableType [] (Instance (type_ref Q_class) []);
     mc_context := call (as_manager_ctx Q_class) |}.

(** The stock user classes, and a checker that knows them. *)
Definition AbstractBaseUser_info : TypeInfo :=
  {| name := "AbstractBaseUser";
     fullname := "django.contrib.auth.base_user.AbstractBaseUser";
     module_name := "django.contrib.auth.base_user"; bases := [];
     names := []; ancestors := [object_body]; line := 1 |}.

Definition AnonymousUser_info : TypeInfo :=
  {| name := "AnonymousUser";
     fullname := "django.contrib.auth.models.AnonymousUser";
     module_name := "django.contrib.auth.models"; bases := [];
     names := []; ancestors := [object_body]; line := 2 |}.

Definition request_checker : TypeChecker :=
  {| tc_typeinfo_metadata := ∅;
     tc_modules :=
       [("django.contrib.auth.base_user",
         {| mf_fullname := "django.contrib.auth.base_user";
            mf_names := [("AbstractBaseUser", class_symbol AbstractBaseUser_info)] |});
        ("django.contrib.auth.models",
         {| mf_fullname := "django.contrib.auth.models";
            mf_names := [("AnonymousUser", class_symbol AnonymousUser_info)] |})];
     tc_tree := {| mf_fullname := "app.views"; mf_names := [] |} |}.

Definition stock_user_type : MypyType :=
  UnionType [Instance (type_ref AbstractBaseUser_info) [];
             Instance (type_ref AnonymousUser_info) []].

(** A request class that declares its own user type. *)
Definition custom_user_type : MypyType :=
  Instance {| ref_name := "Member"; ref_fullname := "app.models.Member" |} [].

(** A project whose user model is not known to the checker. *)
Definition project : DjangoContext (Class_ := string) :=
  {| AUTH_USER_MODEL := "app.Member";
     get_model label :=
       if String.eqb label "app.Member" then Return "app.models.Member"
       else Raise LookupError |}.

(** A queryset class that lists a mixin after the base queryset class:
    [class MixedQ(QuerySet, Mixin)]. *)
Definition Mixin_body : ClassBody :=
  {| cb_fullname := "app.models.Mixin";
     cb_names := [method "app.models.Mixin" "archived" []] |}.

Definition MixedQ : TypeInfo :=
  {| name := "MixedQ"; fullname := "app.models.MixedQ"; module_name := "app.models";
     bases := []; names := [method "app.models.MixedQ" "active" []];
     ancestors := [QuerySet_body; Mixin_body; object_body]; line := 30 |}.

(** A class that is passed as queryset without deriving from the base
    queryset class. *)
Definition PlainQ : TypeInfo :=
  {| name := "PlainQ"; fullname := "app.models.PlainQ"; module_name := "app.models";
     bases := []; names := [method "app.models.PlainQ" "active" []];
     ancestors := [{| cb_fullname := "builtins.object";
                      cb_names := [method "builtins.object" "__init__" []] |}];
     line := 40 |}.

(** The analyzer inside a class body of a module whose globals are still
    empty. *)
Definition api_in_class_of_empty_module : SemanticAnalyzer :=
  {| final_iteration := false; deferred := false; progress := false;
     cur_mod_id := "app.empty";
     cur_mod_node := {| mf_fullname := "app.empty"; mf_names := [] |};
     other_modules := [("django.db.models.manager", manager_module)];
     scope_names := Some [("label", {| kind := MDEF;
                                       node := Some (VarNode "app.empty.Holder.label");
                                       plugin_generated := false |})];
     scope_classes := []; missing_names := []; typeinfo_metadata := ∅ |}.

(** [NewManager = M.from_queryset(models.Q)]: the queryset by a dotted
    reference. *)
Definition dotted_queryset_ctx : DynamicClassDefContext :=
  {| call := {| callee := MemberExpr M_expr "from_queryset" None;
                call_args :=
                  [MemberExpr (NameExpr "models" (Some "app.models") None) "Q"
                     (Some (TypeInfoNode Q_class))];
                call_line := 22 |};
     ctx_name := "NewManager" |}.

(** [NewManager = M.from_queryset(Q, manager_name)]: the name by a
    variable. *)
Definition named_by_variable_ctx : DynamicClassDefContext :=
  {| call := {| callee := MemberExpr M_expr "from_queryset" None;
                call_args :=
                  [Q_expr Q_class;
                   NameExpr "manager_name" (Some "app.models.manager_name")
                     (Some (VarNode "app.models.manager_name"))];
                call_line := 23 |};
     ctx_name := "NewManager" |}.


(** [class Comment(models.Model)], analyzed after [Article]: the analyzer
    at [objects = Q.as_manager()] in its body, with the metadata that the
    run in [Article] left. *)
Definition Comment : TypeInfo :=
  {| name := "Comment"; fullname := "app.models.Comment"; module_name := "app.models";
     bases := []; names := []; ancestors := [Model_body; object_body]; line := 16 |}.

Definition api_in_Comment : SemanticAnalyzer :=
  {| final_iteration := false; deferred := false; progress := false;
     cur_mod_id := "app.models"; cur_mod_node := models_module (class_symbol Q_class);
     other_modules := [("django.db.models.manager", manager_module);
                       ("app.views", views_module)];
     scope_names := None; scope_classes := [Comment]; missing_names := [];
     typeinfo_metadata :=
       typeinfo_metadata
         (create_manager_class_from_as_manager_method (as_manager_ctx Q_class)
            api_in_Article).2 |}.

(** A project whose user model is a class that the checker knows. *)
Definition project_with_known_user : DjangoContext (Class_ := string) :=
  {| AUTH_USER_MODEL := "auth.User";
     get_model label :=
       if String.eqb label "auth.User"
       then Return "django.contrib.auth.base_user.AbstractBaseUser"
       else Raise LookupError |}.

End example.

(** ** The classes of a queryset that hold its own methods *)

Section custom_classes.
Context {fullnames : Fullnames}.

(** The classes of a method resolution order up to, and excluding, the
    first one that is the ORM's base queryset class. *)
Fixpoint classes_before_queryset (classes : list ClassBody) : list ClassBody :=
  match classes with
  | [] => []
  | cls :: rest =>
      if String.eqb (cb_fullname cls) QUERYSET_CLASS_FULLNAME then []
      else cls :: classes_before_queryset rest
  end.

(** The class body binds [method_name] to the function definition
    [method_node]. *)
Definition declares_method (cls : ClassBody) (method_name : string)
    (method_node : FuncDef) : Prop :=
  ∃ sym, (method_name, sym) ∈ cb_names cls ∧ node sym = Some (FuncDefNode method_node).

(** [method_node] is a query method that the queryset adds to the base
    queryset class. *)
Definition custom_queryset_method (queryset_info : TypeInfo) (method_name : string)
    (method_node : FuncDef) : Prop :=
  ∃ cls, cls ∈ classes_before_queryset (mro queryset_info)
         ∧ declares_method cls method_name method_node.
End custom_classes.

(** ** Where the incomplete-definition exception arises *)

(** A symbol that a lookup found is of no use yet: there is none, it has no
    node, or its node is a placeholder. *)
Definition unusable_symbol (sym : option SymbolTableNode) : bool :=
  match sym with
  | None => true
  | Some found => match node found with
                  | None => true
                  | Some target => is_PlaceholderNode (Some target)
                  end
  end.

(** [expr.node] of a reference expression, a [NameExpr] or a [MemberExpr]. *)
Definition ref_node (expr : Expression) : option (option SymbolNode) :=
  match expr with
  | NameExpr _ _ target | MemberExpr _ _ target => Some target
  | _ => None
  end.

(** The name that [as_manager] gives to the generic parameter: the
    innermost enclosing class when it is a model, [Any] otherwise. *)
Definition enclosing_model_name `{Fullnames} (api : SemanticAnalyzer) : string :=
  match last (scope_classes api) with
  | Some enclosing =>
      if has_base enclosing MODEL_CLASS_FULLNAME then name enclosing else "Any"
  | None => "Any"
  end.

Section phases.
Context {fullnames : Fullnames} {host : SemanalHost}.

(** [IncompleteDefnException(msg)] is raised inside the [from_queryset]
    entry point: by the name resolution of the first [try], or by the copy
    of the methods in the second one, which runs once the class is built
    and recorded. *)
Definition incomplete_definition_in_from_queryset (ctx : DynamicClassDefContext)
    (api : SemanticAnalyzer) (msg : string) : Prop :=
  resolve_from_queryset ctx api = (Raise (IncompleteDefnException msg), api)
  ∨ ∃ callee_manager_info queryset_info django_manager_info new_manager_info api1,
      resolve_from_queryset ctx api
      = (Return (callee_manager_info, queryset_info, django_manager_info), api)
      ∧ new_manager_typeinfo ctx callee_manager_info api = (Return new_manager_info, api)
      ∧ record_new_manager_info_fullname_into_metadata ctx (fullname new_manager_info)
          callee_manager_info queryset_info django_manager_info api
        = (Return tt, api1)
      ∧ copy_all_custom_queryset_methods new_manager_info
          (fill_typevars new_manager_info) queryset_info api1
        = (Raise (IncompleteDefnException msg), api1).

(** The same for the [as_manager] entry point. *)
Definition incomplete_definition_in_as_manager (ctx : DynamicClassDefContext)
    (api : SemanticAnalyzer) (msg : string) : Prop :=
  resolve_as_manager ctx api = (Raise (IncompleteDefnException msg), api)
  ∨ ∃ queryset_info django_manager_info new_manager_class_name new_manager_info api1,
      resolve_as_manager ctx api = (Return (queryset_info, django_manager_info), api)
      ∧ as_manager_typeinfo ctx queryset_info django_manager_info api
        = (Return (new_manager_class_name, new_manager_info), api)
      ∧ record_new_manager_info_fullname_into_metadata ctx (fullname new_manager_info)
          django_manager_info queryset_info django_manager_info api
        = (Return tt, api1)
      ∧ copy_all_custom_queryset_methods new_manager_info
          (fill_typevars new_manager_info) queryset_info api1
        = (Raise (IncompleteDefnException msg), api1).
(** What either entry point does once the names are resolved and the class
    is built, as one function of the analyzer: the entry under the key of
    [key_base] and the queryset, the copy of the methods with the second
    [try], and the publication under [sym_name]. *)
Definition finish_manager (ctx : DynamicClassDefContext) (key_base : TypeInfo)
    (queryset_info django_manager_info new_manager_info : TypeInfo)
    (sym_name : string) (symbol_table : option TableRef) (api : SemanticAnalyzer)
    : result unit * SemanticAnalyzer :=
  match get_generated_manager_fullname (call ctx) key_base queryset_info with
  | Raise e => (Raise e, api)
  | Return key =>
      let api1 :=
        set_typeinfo_metadata
          (registry_record django_manager_info key (fullname new_manager_info)
             (typeinfo_metadata api)) api in
      match copy_methods new_manager_info (fill_typevars new_manager_info)
              (iter_all_custom_queryset_methods queryset_info) with
      | Return finished =>
          publish_manager finished
            (fun new_manager_sym =>
               add_symbol_table_node sym_name new_manager_sym None symbol_table
                 true false) api1
      | Raise (IncompleteDefnException msg) =>
          if final_iteration api then (Raise (IncompleteDefnException msg), api1)
          else (Return tt, set_deferred true api1)
      | Raise e => (Raise e, api1)
      end
  end.
End phases.

(** * Properties *)

(** ** Dictionaries *)

Section dict_facts.
Context {V : Type}.
Implicit Types (d : list (string * V)) (k : string) (v : V).

Lemma dict_get_set_eq d k v : dict_get (dict_set d k v) k = Some v.
Proof.
  induction d as [|[k' v'] d IH]; simpl.
  - by rewrite String.eqb_refl.
  - destruct (String.eqb k' k) eqn:E; simpl; rewrite E; done.
Qed.

Lemma dict_get_set_ne d k k' v : k ≠ k' → dict_get (dict_set d k v) k' = dict_get d k'.
Proof.
  intros Hne. induction d as [|[k0 v0] d IH]; simpl.
  - by apply String.eqb_neq in Hne as ->.
  - destruct (String.eqb k0 k) eqn:E; simpl; [|by rewrite IH].
    apply String.eqb_eq in E as ->. by apply String.eqb_neq in Hne as ->.
Qed.

Lemma dict_get_Some_elem d k v : dict_get d k = Some v → (k, v) ∈ d.
Proof.
  induction d as [|[k' v'] d IH]; simpl; [done|].
  destruct (String.eqb k' k) eqn:E.
  - apply String.eqb_eq in E as ->. intros [= ->]. left.
  - intros H. right. auto.
Qed.

Lemma dict_get_is_Some d k : is_Some (dict_get d k) ↔ k ∈ dict_keys d.
Proof.
  unfold dict_keys. induction d as [|[k' v'] d IH]; simpl.
  - split; [by intros [? ?]|by intros ?%elem_of_nil].
  - destruct (String.eqb k' k) eqn:E.
    + apply String.eqb_eq in E as ->. split; [left|eauto].
    + apply String.eqb_neq in E. rewrite IH. split; [by right|].
      intros [?|?]%elem_of_cons; [congruence|done].
Qed.

Lemma dict_keys_set d k v :
  dict_keys (dict_set d k v)
  = match dict_get d k with
    | Some _ => dict_keys d
    | None => (dict_keys d ++ [k])%list
    end.
Proof.
  unfold dict_keys. induction d as [|[k' v'] d IH]; simpl; [done|].
  destruct (String.eqb k' k) eqn:E; [done|].
  rewrite fmap_cons, IH. by destruct (dict_get d k).
Qed.

Lemma dict_set_length d k v :
  length (dict_set d k v)
  = match dict_get d k with
    | Some _ => length d
    | None => S (length d)
    end.
Proof.
  induction d as [|[k' v'] d IH]; simpl; [done|].
  destruct (String.eqb k' k) eqn:E; simpl; [done|].
  rewrite IH. by destruct (dict_get d k).
Qed.
End dict_facts.

(** ** The enumeration of the custom methods *)

Section enumeration_facts.
Context {fullnames : Fullnames}.

Lemma elem_of_class_funcdefs cls method_name method_node :
  (method_name, method_node) ∈ class_funcdefs cls
  ↔ declares_method cls method_name method_node.
Proof.
  unfold class_funcdefs, declares_method.
  rewrite list_elem_of_In, in_flat_map. split.
  - intros ([k sym] & Hin%list_elem_of_In & Hf). exists sym.
    destruct (node sym) as [[]|] eqn:Hn; simpl in Hf;
      try (by destruct Hf). destruct Hf as [[= -> ->]|[]]. done.
  - intros (sym & Hin & Hn). exists (method_name, sym).
    split; [by apply list_elem_of_In|]. rewrite Hn. by left.
Qed.

Lemma elem_of_iter_custom_methods_of_mro classes method_name method_node :
  (method_name, method_node) ∈ iter_custom_methods_of_mro classes
  ↔ ∃ cls, cls ∈ classes_before_queryset classes
           ∧ declares_method cls method_name method_node.
Proof.
  induction classes as [|cls classes IH]; simpl.
  - split; [by intros ?%elem_of_nil|]. by intros (? & ?%elem_of_nil & _).
  - destruct (String.eqb (cb_fullname cls) QUERYSET_CLASS_FULLNAME).
    + split; [by intros ?%elem_of_nil|]. by intros (? & ?%elem_of_nil & _).
    + rewrite elem_of_app, elem_of_class_funcdefs, IH. split.
      * intros [H|(c & Hc & H)]; [exists cls|exists c]; split; auto; [left|by right].
      * intros (c & [->|Hc]%elem_of_cons & H); eauto.
Qed.

Lemma elem_of_iter_all_custom_queryset_methods queryset_info method_name method_node :
  (method_name, method_node) ∈ iter_all_custom_queryset_methods queryset_info
  ↔ custom_queryset_method queryset_info method_name method_node.
Proof. apply elem_of_iter_custom_methods_of_mro. Qed.

Lemma classes_before_queryset_fullname cls classes :
  cls ∈ classes_before_queryset classes → cb_fullname cls ≠ QUERYSET_CLASS_FULLNAME.
Proof.
  induction classes as [|c classes IH]; simpl; [by intros ?%elem_of_nil|].
  destruct (String.eqb (cb_fullname c) QUERYSET_CLASS_FULLNAME) eqn:E;
    [by intros ?%elem_of_nil|].
  intros [->|H]%elem_of_cons; [by apply String.eqb_neq|auto].
Qed.

(** The classes that are enumerated form the part of the resolution order
    that precedes the base queryset class. *)
Lemma classes_before_queryset_prefix classes :
  ∃ rest, classes = (classes_before_queryset classes ++ rest)%list
          ∧ (rest = [] ∨ ∃ cls rest', rest = cls :: rest'
                                      ∧ cb_fullname cls = QUERYSET_CLASS_FULLNAME).
Proof.
  induction classes as [|c classes (rest & IH & Hrest)]; simpl.
  - exists []. auto.
  - destruct (String.eqb (cb_fullname c) QUERYSET_CLASS_FULLNAME) eqn:E.
    + exists (c :: classes). split; [done|]. right. exists c, classes.
      by apply String.eqb_eq in E.
    + exists rest. split; [by rewrite IH at 1|done].
Qed.
End enumeration_facts.

(** ** Copying methods onto the new class *)

Lemma copy_methods_header info0 self_type methods info :
  copy_methods info0 self_type methods = Return info →
  info = set_names info0 (names info).
Proof.
  revert info0. induction methods as [|[k f] methods IH]; simpl; intros info0.
  - intros [= <-]. by destruct info0.
  - unfold copy_method_or_incomplete_defn_exception.
    destruct (fd_unresolved f); [|done]. intros H%IH. rewrite H at 1. done.
Qed.

Lemma copy_methods_raises info0 self_type methods e :
  copy_methods info0 self_type methods = Raise e →
  ∃ error_message, e = IncompleteDefnException error_message.
Proof.
  revert info0. induction methods as [|[k f] methods IH]; simpl; intros info0; [done|].
  unfold copy_method_or_incomplete_defn_exception.
  destruct (fd_unresolved f); [by intros ?%IH|]. intros [= <-]. eauto.
Qed.

Lemma copy_methods_lookup info0 self_type methods info method_name sym :
  copy_methods info0 self_type methods = Return info →
  dict_get (names info) method_name = Some sym →
  dict_get (names info0) method_name = Some sym
  ∨ ∃ method_node, (method_name, method_node) ∈ methods
                   ∧ sym = copied_method info0 self_type method_name method_node.
Proof.
  revert info0. induction methods as [|[k f] methods IH]; simpl; intros info0.
  - intros [= <-]. auto.
  - unfold copy_method_or_incomplete_defn_exception.
    destruct (fd_unresolved f); [|done]. intros Hcopy Hget.
    destruct (IH _ Hcopy Hget) as [Hold|(f' & Hin & ->)].
    + simpl in Hold. destruct (decide (k = method_name)) as [->|Hne].
      * rewrite dict_get_set_eq in Hold. injection Hold as <-.
        right. exists f. split; [left|done].
      * rewrite dict_get_set_ne in Hold by done. auto.
    + right. exists f'. split; [by right|done].
Qed.

Lemma copy_methods_keys info0 self_type methods info :
  copy_methods info0 self_type methods = Return info →
  (∀ method_name,
     method_name ∈ dict_keys (names info)
     ↔ method_name ∈ dict_keys (names info0) ∨ method_name ∈ methods.*1)
  ∧ (NoDup (dict_keys (names info0) ++ methods.*1) →
     dict_keys (names info) = (dict_keys (names info0) ++ methods.*1)%list).
Proof.
  revert info0. induction methods as [|[k f] methods IH]; simpl; intros info0.
  - intros [= <-]. split.
    + intros k. rewrite elem_of_nil. tauto.
    + by rewrite app_nil_r.
  - unfold copy_method_or_incomplete_defn_exception.
    destruct (fd_unresolved f); [|done]. intros [Hiff Heq]%IH. simpl in *.
    rewrite dict_keys_set in Hiff, Heq. split.
    + intros k'. rewrite Hiff, elem_of_cons.
      destruct (dict_get (names info0) k) eqn:Hk.
      * assert (k ∈ dict_keys (names info0)) by (apply dict_get_is_Some; eauto).
        split; [tauto|]. intros [?|[->|?]]; auto.
      * rewrite elem_of_app, list_elem_of_singleton. tauto.
    + intros Hnd. destruct (dict_get (names info0) k) eqn:Hk.
      * assert (k ∈ dict_keys (names info0)) by (apply dict_get_is_Some; eauto).
        apply NoDup_app in Hnd as (_ & Hdisj & _).
        exfalso. eapply Hdisj; [done|left].
      * rewrite cons_middle, (assoc_L (++)) in Hnd |- *. by apply Heq.
Qed.

(** ** The registry *)

Lemma registry_lookup_record django_manager_info key value md :
  registry_lookup (registry_record django_manager_info key value md)
    django_manager_info key = Some value.
Proof.
  unfold registry_lookup, registry_record.
  rewrite lookup_insert_eq. simpl. rewrite lookup_insert_eq. simpl.
  by rewrite lookup_insert_eq.
Qed.

Lemma registry_record_idemp django_manager_info key value md :
  registry_record django_manager_info key value
    (registry_record django_manager_info key value md)
  = registry_record django_manager_info key value md.
Proof.
  unfold registry_record at 1.
  set (md1 := registry_record django_manager_info key value md).
  assert (md1 !! fullname django_manager_info
          = Some (<["from_queryset_managers" :=
                     <[key := value]>
                       (default ∅ (default ∅ (md !! fullname django_manager_info)
                                     !! "from_queryset_managers"))]>
                    (default ∅ (md !! fullname django_manager_info)))) as Hmd
    by (unfold md1, registry_record; by rewrite lookup_insert_eq).
  rewrite Hmd. simpl. rewrite lookup_insert_eq. simpl.
  rewrite !insert_insert_eq. unfold md1, registry_record.
  by rewrite insert_insert_eq.
Qed.

Section entry_point_facts.
Context {fullnames : Fullnames} {host : SemanalHost}.

Lemma get_generated_managers_metadata_record django_manager_info key value md :
  (let* _ := get_generated_managers_metadata django_manager_info in
   set_generated_manager django_manager_info key value) md
  = (Return tt, registry_record django_manager_info key value md).
Proof.
  unfold get_generated_managers_metadata, set_generated_manager, registry_record. run_monad.
  destruct (default ∅ (md !! fullname django_manager_info) !! "from_queryset_managers")
    as [managers|] eqn:E; simpl; [by rewrite E|].
  rewrite lookup_insert_eq. simpl. rewrite lookup_insert_eq. simpl.
  by rewrite !insert_insert_eq.
Qed.

Lemma get_generated_managers_metadata_lookup django_manager_info md :
  ∃ managers md',
    get_generated_managers_metadata django_manager_info md = (Return managers, md')
    ∧ (∀ key, managers !! key = registry_lookup md django_manager_info key)
    ∧ (∀ key, registry_lookup md' django_manager_info key
              = registry_lookup md django_manager_info key).
Proof.
  unfold get_generated_managers_metadata, registry_lookup.
  destruct (default ∅ (md !! fullname django_manager_info) !! "from_queryset_managers")
    as [managers|] eqn:E; simpl.
  - exists managers, md. rewrite E. done.
  - eexists ∅, _. split; [done|]. split; [done|].
    intros key. rewrite lookup_insert_eq. simpl. by rewrite lookup_insert_eq.
Qed.

Lemma record_run ctx new_manager_fullname callee_manager_info queryset_info
    django_manager_info api :
  record_new_manager_info_fullname_into_metadata ctx new_manager_fullname
    callee_manager_info queryset_info django_manager_info api
  = match get_generated_manager_fullname (call ctx) callee_manager_info queryset_info with
    | Return key =>
        (Return tt,
         set_typeinfo_metadata
           (registry_record django_manager_info key new_manager_fullname
              (typeinfo_metadata api)) api)
    | Raise e => (Raise e, api)
    end.
Proof.
  unfold record_new_manager_info_fullname_into_metadata.
  destruct (get_generated_manager_fullname _ _ _); [|done].
  unfold with_metadata. by rewrite get_generated_managers_metadata_record.
Qed.

(** Name resolution reads the analyzer and leaves it as it is. *)
Lemma resolve_callee_info_state ctx api r api' :
  resolve_callee_info_or_exception ctx api = (r, api') → api' = api.
Proof.
  unfold resolve_callee_info_or_exception. run_monad.
  repeat case_match; by intros [= _ <-].
Qed.

Lemma resolve_passed_queryset_info_state ctx api r api' :
  resolve_passed_queryset_info_or_exception ctx api = (r, api') → api' = api.
Proof.
  unfold resolve_passed_queryset_info_or_exception. run_monad.
  repeat case_match; by intros [= _ <-].
Qed.

Lemma resolve_django_manager_info_state ctx api r api' :
  resolve_django_manager_info_or_exception ctx api = (r, api') → api' = api.
Proof.
  unfold resolve_django_manager_info_or_exception. run_monad.
  repeat case_match; by intros [= _ <-].
Qed.

Lemma resolve_from_queryset_state ctx api r api' :
  resolve_from_queryset ctx api = (r, api') → api' = api.
Proof.
  unfold resolve_from_queryset, bind, ret.
  destruct (resolve_callee_info_or_exception ctx api) as [[c|e] api1] eqn:H1;
    apply resolve_callee_info_state in H1 as ->; [|by intros [= _ <-]].
  destruct (resolve_passed_queryset_info_or_exception ctx api) as [[q|e] api1] eqn:H2;
    apply resolve_passed_queryset_info_state in H2 as ->; [|by intros [= _ <-]].
  destruct (resolve_django_manager_info_or_exception ctx api) as [[d|e] api1] eqn:H3;
    apply resolve_django_manager_info_state in H3 as ->; by intros [= _ <-].
Qed.

Lemma resolve_as_manager_state ctx api r api' :
  resolve_as_manager ctx api = (r, api') → api' = api.
Proof.
  unfold resolve_as_manager, bind, ret.
  destruct (resolve_callee_info_or_exception ctx api) as [[c|e] api1] eqn:H1;
    apply resolve_callee_info_state in H1 as ->; [|by intros [= _ <-]].
  destruct (resolve_django_manager_info_or_exception ctx api) as [[d|e] api1] eqn:H3;
    apply resolve_django_manager_info_state in H3 as ->; by intros [= _ <-].
Qed.

(** The insertion with [context=None] of a symbol that is not a
    placeholder. *)
Lemma add_symbol_table_node_forced sym_name symbol symbol_table api :
  is_PlaceholderNode (node symbol) = false →
  add_symbol_table_node sym_name symbol None symbol_table true false api
  = let names_ref := symbol_table_or_current api symbol_table false in
    if bool_decide (sym_name ∉ missing_names api) && bool_decide ("*" ∉ missing_names api)
    then (Return true,
          set_progress true
            (write_table names_ref
               (dict_set (read_table api names_ref) sym_name symbol) api))
    else (Return false, api).
Proof.
  intros Hnode. unfold add_symbol_table_node. run_monad. rewrite Hnode. simpl.
  destruct (dict_get _ sym_name);
    by destruct (bool_decide (sym_name ∉ missing_names api)
                 && bool_decide ("*" ∉ missing_names api)).
Qed.

Lemma publish_manager_forced new_manager_info sym_name symbol_table api :
  publish_manager new_manager_info
    (fun new_manager_sym =>
       add_symbol_table_node sym_name new_manager_sym None symbol_table true false) api
  = let names_ref := symbol_table_or_current api symbol_table false in
    if bool_decide (sym_name ∉ missing_names api) && bool_decide ("*" ∉ missing_names api)
    then (Return tt,
          references_replaced new_manager_info (manager_symbol new_manager_info)
            (set_progress true
               (write_table names_ref
                  (dict_set (read_table api names_ref) sym_name
                     (manager_symbol new_manager_info)) api)))
    else (Return tt, if final_iteration api then api else set_deferred true api).
Proof.
  unfold publish_manager, bind at 1. rewrite add_symbol_table_node_forced by done.
  simpl. destruct (bool_decide (sym_name ∉ missing_names api)
                   && bool_decide ("*" ∉ missing_names api)); run_monad.
  - unfold replace_all_references. run_monad. by destruct symbol_table_or_current.
  - by destruct (final_iteration api).
Qed.
End entry_point_facts.

(** ** The two entry points, phase by phase *)

Section entry_point_runs.
Context {fullnames : Fullnames} {host : SemanalHost}.

(** The class that [from_queryset] builds before anything is recorded. *)
Lemma new_manager_typeinfo_run ctx callee_manager_info api :
  new_manager_typeinfo ctx callee_manager_info api
  = (Return (set_line
               (new_typeinfo (ctx_name ctx)
                  [Instance (type_ref callee_manager_info) [AnyType unannotated]]
                  (cur_mod_id api))
               (call ctx)), api).
Proof. done. Qed.

Lemma as_manager_typeinfo_run ctx queryset_info django_manager_info api :
  as_manager_typeinfo ctx queryset_info django_manager_info api
  = (Return
       (name queryset_info +:+ "_AsManager_" +:+ (as_manager_generic_param api).2,
        set_line
          (new_typeinfo
             (name queryset_info +:+ "_AsManager_" +:+ (as_manager_generic_param api).2)
             [Instance (type_ref django_manager_info) [(as_manager_generic_param api).1]]
             (cur_mod_id api))
          (call ctx)), api).
Proof.
  unfold as_manager_typeinfo, bind, get, ret.
  by destruct (as_manager_generic_param api).
Qed.

Lemma finish_manager_run ctx key_base queryset_info django_manager_info
    new_manager_info sym_name symbol_table api :
  (do record_new_manager_info_fullname_into_metadata ctx (fullname new_manager_info)
        key_base queryset_info django_manager_info then
   try_except_IncompleteDefnException
     (copy_all_custom_queryset_methods new_manager_info
        (fill_typevars new_manager_info) queryset_info)
     (fun finished =>
        publish_manager finished
          (fun new_manager_sym =>
             add_symbol_table_node sym_name new_manager_sym None symbol_table
               true false))) api
  = finish_manager ctx key_base queryset_info django_manager_info new_manager_info
      sym_name symbol_table api.
Proof.
  unfold finish_manager, bind at 1. rewrite record_run.
  destruct (get_generated_manager_fullname _ _ _) as [key|e]; [|done].
  unfold try_except_IncompleteDefnException, copy_all_custom_queryset_methods.
  destruct (copy_methods _ _ _) as [finished|e] eqn:Hcopy; [done|].
  apply copy_methods_raises in Hcopy as [msg ->]. simpl.
  by destruct (final_iteration api).
Qed.

Lemma create_new_manager_class_from_from_queryset_method_run ctx api :
  create_new_manager_class_from_from_queryset_method ctx api
  = match resolve_from_queryset ctx api with
    | (Return (callee_manager_info, queryset_info, django_manager_info), _) =>
        finish_manager ctx callee_manager_info queryset_info django_manager_info
          (set_line
             (new_typeinfo (ctx_name ctx)
                [Instance (type_ref callee_manager_info) [AnyType unannotated]]
                (cur_mod_id api))
             (call ctx))
          (ctx_name ctx) None api
    | (Raise (IncompleteDefnException msg), _) =>
        if final_iteration api then (Raise (IncompleteDefnException msg), api)
        else (Return tt, set_deferred true api)
    | (Raise e, _) => (Raise e, api)
    end.
Proof.
  unfold create_new_manager_class_from_from_queryset_method,
    try_except_IncompleteDefnException.
  destruct (resolve_from_queryset ctx api) as [[[[c q] d]|e] api1] eqn:Hres;
    apply resolve_from_queryset_state in Hres as ->.
  - unfold bind at 1. rewrite new_manager_typeinfo_run. apply finish_manager_run.
  - destruct e; try done. by destruct (final_iteration api).
Qed.

Lemma create_manager_class_from_as_manager_method_run ctx api :
  create_manager_class_from_as_manager_method ctx api
  = match resolve_as_manager ctx api with
    | (Return (queryset_info, django_manager_info), _) =>
        let new_manager_class_name :=
          name queryset_info +:+ "_AsManager_" +:+ (as_manager_generic_param api).2 in
        finish_manager ctx django_manager_info queryset_info django_manager_info
          (set_line
             (new_typeinfo new_manager_class_name
                [Instance (type_ref django_manager_info)
                   [(as_manager_generic_param api).1]]
                (cur_mod_id api))
             (call ctx))
          new_manager_class_name (Some GlobalsTable) api
    | (Raise (IncompleteDefnException msg), _) =>
        if final_iteration api then (Raise (IncompleteDefnException msg), api)
        else (Return tt, set_deferred true api)
    | (Raise e, _) => (Raise e, api)
    end.
Proof.
  unfold create_manager_class_from_as_manager_method,
    try_except_IncompleteDefnException.
  destruct (resolve_as_manager ctx api) as [[[q d]|e] api1] eqn:Hres;
    apply resolve_as_manager_state in Hres as ->.
  - unfold bind at 1. rewrite as_manager_typeinfo_run. apply finish_manager_run.
  - destruct e; try done. by destruct (final_iteration api).
Qed.

(** The fields that the later phases leave alone. *)
Lemma finish_manager_final_iteration ctx key_base queryset_info django_manager_info
    new_manager_info sym_name symbol_table api r api' :
  finish_manager ctx key_base queryset_info django_manager_info new_manager_info
    sym_name symbol_table api = (r, api') →
  final_iteration api' = final_iteration api
  ∧ cur_mod_id api' = cur_mod_id api
  ∧ scope_classes api' = scope_classes api
  ∧ missing_names api' = missing_names api.
Proof.
  unfold finish_manager.
  destruct (get_generated_manager_fullname _ _ _) as [key|e]; [|by intros [= _ <-]].
  destruct (copy_methods _ _ _) as [finished|e].
  - rewrite publish_manager_forced. simpl.
    destruct (_ && _).
    + intros [= _ <-]. by destruct (symbol_table_or_current _ _ _).
    + intros [= _ <-]. by destruct (final_iteration api) eqn:E.
  - destruct e; try by intros [= _ <-].
    destruct (final_iteration api) eqn:E; by intros [= _ <-].
Qed.
End entry_point_runs.

(** ** Incomplete definitions: deferral, or failure on the final pass *)

Section deferral.
Context {fullnames : Fullnames} {host : SemanalHost}.

Lemma finish_manager_incomplete ctx key_base queryset_info django_manager_info
    new_manager_info sym_name symbol_table api api1 msg :
  record_new_manager_info_fullname_into_metadata ctx (fullname new_manager_info)
    key_base queryset_info django_manager_info api = (Return tt, api1) →
  copy_all_custom_queryset_methods new_manager_info (fill_typevars new_manager_info)
    queryset_info api1 = (Raise (IncompleteDefnException msg), api1) →
  finish_manager ctx key_base queryset_info django_manager_info new_manager_info
    sym_name symbol_table api
  = if final_iteration api then (Raise (IncompleteDefnException msg), api1)
    else (Return tt, set_deferred true api1).
Proof.
  rewrite record_run. unfold finish_manager, copy_all_custom_queryset_methods.
  destruct (get_generated_manager_fullname _ _ _) as [key|e]; [|done].
  intros [= <-]. by destruct (copy_methods _ _ _) as [finished|e]; intros [= ->].
Qed.

Lemma finish_manager_not_incomplete ctx key_base queryset_info django_manager_info
    new_manager_info sym_name symbol_table api msg :
  final_iteration api = false →
  (finish_manager ctx key_base queryset_info django_manager_info new_manager_info
     sym_name symbol_table api).1 ≠ Raise (IncompleteDefnException msg).
Proof.
  intros Hfinal. unfold finish_manager, get_generated_manager_fullname.
  repeat case_match; simplify_eq; simpl; try done.
  all: rewrite publish_manager_forced; simpl; by case_match.
Qed.

(** C5. An incomplete-definition exception that arises inside either
    dynamic-class-definition entry point, in the name resolution or in the
    copy of the methods, is caught by the entry point: when the analyzer is
    not on its final iteration the entry point returns normally with a
    deferral requested, and on the final iteration the same exception
    leaves the entry point. When the final-iteration flag is unset no
    incomplete-definition exception leaves either entry point at all. *)
Theorem incomplete_definition_deferred_or_reraised
    (ctx : DynamicClassDefContext) (api : SemanticAnalyzer) (msg : string) :
  (incomplete_definition_in_from_queryset ctx api msg →
   let run := create_new_manager_class_from_from_queryset_method ctx api in
   if final_iteration api then run.1 = Raise (IncompleteDefnException msg)
   else run.1 = Return tt ∧ deferred run.2 = true)
  ∧ (incomplete_definition_in_as_manager ctx api msg →
     let run := create_manager_class_from_as_manager_method ctx api in
     if final_iteration api then run.1 = Raise (IncompleteDefnException msg)
     else run.1 = Return tt ∧ deferred run.2 = true)
  ∧ (final_iteration api = false →
     (create_new_manager_class_from_from_queryset_method ctx api).1
       ≠ Raise (IncompleteDefnException msg)
     ∧ (create_manager_class_from_as_manager_method ctx api).1
       ≠ Raise (IncompleteDefnException msg)).
Proof.
  split; [|split].
  - intros [Hres|(c & q & d & info & api1 & Hres & Hinfo & Hrec & Hcopy)]; simpl;
      rewrite create_new_manager_class_from_from_queryset_method_run, Hres.
    + by destruct (final_iteration api).
    + rewrite new_manager_typeinfo_run in Hinfo. injection Hinfo as <-.
      rewrite (finish_manager_incomplete _ _ _ _ _ _ _ _ _ _ Hrec Hcopy).
      by destruct (final_iteration api).
  - intros [Hres|(q & d & nm & info & api1 & Hres & Hinfo & Hrec & Hcopy)]; simpl;
      rewrite create_manager_class_from_as_manager_method_run, Hres.
    + by destruct (final_iteration api).
    + rewrite as_manager_typeinfo_run in Hinfo. injection Hinfo as <- <-.
      rewrite (finish_manager_incomplete _ _ _ _ _ _ _ _ _ _ Hrec Hcopy).
      by destruct (final_iteration api).
  - intros Hfinal. split.
    + rewrite create_new_manager_class_from_from_queryset_method_run.
      destruct (resolve_from_queryset ctx api) as [[[[c q] d]|e] api1].
      * by apply finish_manager_not_incomplete.
      * destruct e; try done. by rewrite Hfinal.
    + rewrite create_manager_class_from_as_manager_method_run.
      destruct (resolve_as_manager ctx api) as [[[q d]|e] api1].
      * by apply finish_manager_not_incomplete.
      * destruct e; try done. by rewrite Hfinal.
Qed.
End deferral.

(** ** Publication: insertion and the sweep over the modules *)

Section publication.
Context {fullnames : Fullnames} {host : SemanalHost}.

Lemma repoint_names_fold (new_manager_info : TypeInfo)
    (new_manager_sym : SymbolTableNode) (items current : SymbolTable)
    (sym_name : string) (sym : SymbolTableNode) :
  sym_fullname sym = Some (fullname new_manager_info) →
  dict_get current sym_name = Some (sym_copy new_manager_sym) ∨ (sym_name, sym) ∈ items →
  dict_get
    (fold_left
       (fun current '(sym_name, sym) =>
          match sym_fullname sym with
          | Some sym_fn =>
              if String.eqb sym_fn (fullname new_manager_info)
              then dict_set current sym_name (sym_copy new_manager_sym)
              else current
          | None => current
          end)
       items current) sym_name
  = Some (sym_copy new_manager_sym).
Proof.
  intros Hfn. revert current.
  induction items as [|[k s] items IH]; simpl; intros current.
  - intros [H|H%elem_of_nil]; done.
  - intros [H|[[= <- <-]|H]%elem_of_cons]; apply IH; auto.
    + left. destruct (sym_fullname s) as [fn|]; [|done].
      destruct (String.eqb fn (fullname new_manager_info)); [|done].
      destruct (decide (k = sym_name)) as [->|Hne].
      * apply dict_get_set_eq.
      * by rewrite dict_get_set_ne.
    + left. rewrite Hfn, String.eqb_refl. apply dict_get_set_eq.
Qed.

(** An entry that pointed to a class of the same full name points to the
    new symbol after the inner loop. *)
Lemma repoint_names_lookup (new_manager_info : TypeInfo)
    (new_manager_sym : SymbolTableNode) (module_names : SymbolTable)
    (sym_name : string) (sym : SymbolTableNode) :
  dict_get module_names sym_name = Some sym →
  sym_fullname sym = Some (fullname new_manager_info) →
  dict_get (repoint_names new_manager_info new_manager_sym module_names) sym_name
  = Some (sym_copy new_manager_sym).
Proof.
  intros Hget Hfn. unfold repoint_names.
  apply (repoint_names_fold _ _ _ _ _ sym); [done|].
  right. by apply dict_get_Some_elem.
Qed.

Lemma references_replaced_other_modules (new_manager_info : TypeInfo)
    (new_manager_sym : SymbolTableNode) (api : SemanticAnalyzer) (i : nat)
    (module_id : string) (module : MypyFile) (sym_name : string)
    (sym : SymbolTableNode) :
  other_modules api !! i = Some (module_id, module) →
  mf_fullname module ≠ cur_mod_id api →
  dict_get (mf_names module) sym_name = Some sym →
  sym_fullname sym = Some (fullname new_manager_info) →
  ∃ module',
    other_modules (references_replaced new_manager_info new_manager_sym api) !! i
    = Some (module_id, module')
    ∧ mf_fullname module' = mf_fullname module
    ∧ dict_get (mf_names module') sym_name = Some (sym_copy new_manager_sym).
Proof.
  intros Hi Hne Hget Hfn. unfold references_replaced. simpl.
  eexists. split; [|split].
  - change (map ?f ?l) with (f <$> l). rewrite list_lookup_fmap, Hi. simpl. done.
  - unfold repoint_module. by destruct (negb _).
  - unfold repoint_module. apply String.eqb_neq in Hne as ->. simpl.
    by apply (repoint_names_lookup _ _ _ _ sym).
Qed.

(** The symbol bound by the insertion still names the new class after the
    sweep. *)
Lemma references_replaced_published (new_manager_info : TypeInfo)
    (names_ref : TableRef) (sym_name : string) (api : SemanticAnalyzer) :
  let api1 :=
    write_table names_ref
      (dict_set (read_table api names_ref) sym_name (manager_symbol new_manager_info))
      api in
  ∃ sym,
    dict_get
      (read_table
         (references_replaced new_manager_info (manager_symbol new_manager_info)
            (set_progress true api1)) names_ref) sym_name = Some sym
    ∧ node sym = Some (TypeInfoNode new_manager_info).
Proof.
  destruct names_ref; simpl.
  - unfold references_replaced, globals, repoint_module. simpl.
    destruct (negb _); simpl.
    + exists (sym_copy (manager_symbol new_manager_info)). split; [|done].
      eapply repoint_names_lookup; [apply dict_get_set_eq|done].
    + eexists. split; [apply dict_get_set_eq|done].
  - eexists. split; [apply dict_get_set_eq|done].
Qed.
End publication.

Section repointing.
Context {fullnames : Fullnames} {host : SemanalHost}.

(** C8. When [from_queryset] has resolved its names, recorded and copied,
    and the forced insertion of the synthesized class symbol succeeds,
    every entry of every other module's symbol table whose full name is
    that of the class points to a copy of the new symbol afterwards, and no
    deferral is requested. When the insertion does not happen, another pass
    is requested exactly when the final-iteration flag is unset, and no
    module is touched. *)
Theorem insertion_repoints_references_and_retries
    (ctx : DynamicClassDefContext) (api api1 api2 : SemanticAnalyzer)
    (callee_manager_info queryset_info django_manager_info : TypeInfo)
    (new_manager_info finished : TypeInfo) (added : bool) :
  resolve_from_queryset ctx api
  = (Return (callee_manager_info, queryset_info, django_manager_info), api) →
  new_manager_typeinfo ctx callee_manager_info api = (Return new_manager_info, api) →
  record_new_manager_info_fullname_into_metadata ctx (fullname new_manager_info)
    callee_manager_info queryset_info django_manager_info api = (Return tt, api1) →
  copy_all_custom_queryset_methods new_manager_info (fill_typevars new_manager_info)
    queryset_info api1 = (Return finished, api1) →
  add_symbol_table_node (ctx_name ctx) (manager_symbol finished) None None true false api1
  = (Return added, api2) →
  ∃ api',
    create_new_manager_class_from_from_queryset_method ctx api = (Return tt, api')
    ∧ if added then
        deferred api' = deferred api
        ∧ ∀ (i : nat) (module_id : string) (module : MypyFile) (sym_name : string)
            (sym : SymbolTableNode),
            other_modules api !! i = Some (module_id, module) →
            mf_fullname module ≠ cur_mod_id api →
            dict_get (mf_names module) sym_name = Some sym →
            sym_fullname sym = Some (fullname finished) →
            ∃ module',
              other_modules api' !! i = Some (module_id, module')
              ∧ dict_get (mf_names module') sym_name
                = Some (sym_copy (manager_symbol finished))
      else
        deferred api' = (if final_iteration api then deferred api else true)
        ∧ cur_mod_node api' = cur_mod_node api
        ∧ other_modules api' = other_modules api
        ∧ scope_names api' = scope_names api.
Proof.
  intros Hres Hinfo Hrec Hcopy Hadd.
  rewrite create_new_manager_class_from_from_queryset_method_run, Hres.
  rewrite new_manager_typeinfo_run in Hinfo. injection Hinfo as <-.
  rewrite record_run in Hrec. unfold finish_manager.
  destruct (get_generated_manager_fullname _ _ _) as [key|e]; [|done].
  injection Hrec as <-.
  unfold copy_all_custom_queryset_methods in Hcopy.
  destruct (copy_methods _ _ _) as [finished'|e]; [|done].
  injection Hcopy as ->.
  rewrite publish_manager_forced.
  rewrite add_symbol_table_node_forced in Hadd by done. simpl in *.
  destruct (_ && _); injection Hadd as <- <-.
  - eexists. split; [done|]. split.
    + by destruct (current_symbol_table _ _).
    + intros i module_id module sym_name sym Hi Hne Hget Hfn.
      match goal with
      | |- context [references_replaced _ _ ?inserted] =>
          destruct (references_replaced_other_modules finished
                      (manager_symbol finished) inserted
                      i module_id module sym_name sym)
            as (module' & Hi' & _ & Hget'); try done
      end.
      * by destruct (current_symbol_table _ _).
      * by destruct (current_symbol_table _ _).
      * eauto.
  - eexists. split; [done|]. by destruct (final_iteration api).
Qed.
End repointing.

(** ** What a deferred run leaves behind *)

Section deferred_runs.
Context {fullnames : Fullnames} {host : SemanalHost}.


End deferred_runs.

(** ** The class that a run publishes *)

Section published_class.
Context {fullnames : Fullnames} {host : SemanalHost}.

(** A run that makes progress has copied every method and bound the
    finished class under [sym_name]. *)
Lemma finish_manager_published ctx key_base queryset_info django_manager_info
    new_manager_info sym_name symbol_table api r api' :
  finish_manager ctx key_base queryset_info django_manager_info new_manager_info
    sym_name symbol_table api = (r, api') →
  progress api = false → progress api' = true →
  ∃ (finished : TypeInfo) (sym : SymbolTableNode),
    r = Return tt
    ∧ copy_methods new_manager_info (fill_typevars new_manager_info)
        (iter_all_custom_queryset_methods queryset_info) = Return finished
    ∧ dict_get (read_table api' (symbol_table_or_current api symbol_table false)) sym_name
      = Some sym
    ∧ node sym = Some (TypeInfoNode finished).
Proof.
  unfold finish_manager. intros Hrun Hp Hp'.
  destruct (get_generated_manager_fullname _ _ _) as [key|e]; [|congruence].
  destruct (copy_methods _ _ _) as [finished|e].
  - rewrite publish_manager_forced in Hrun. simpl in Hrun.
    destruct (_ && _); injection Hrun as <- <-.
    + match goal with
      | |- context [write_table ?names_ref _ ?recorded] =>
          destruct (references_replaced_published finished names_ref sym_name recorded)
            as (sym & Hget & Hnode)
      end.
      exists finished, sym. split; [done|]. split; [done|]. split; [|done].
      exact Hget.
    + destruct (final_iteration api); simpl in Hp'; congruence.
  - destruct e; try (injection Hrun as <- <-; simpl in Hp'; congruence).
    destruct (final_iteration api); injection Hrun as <- <-; simpl in Hp'; congruence.
Qed.

(** The class that the copy loop finishes, starting from a class without
    members. *)
Lemma copied_class_exposes_custom_methods (new_manager_info finished : TypeInfo)
    (queryset_info : TypeInfo) :
  names new_manager_info = [] →
  copy_methods new_manager_info (fill_typevars new_manager_info)
    (iter_all_custom_queryset_methods queryset_info) = Return finished →
  name finished = name new_manager_info
  ∧ fullname finished = fullname new_manager_info
  ∧ (∀ method_name : string,
       method_name ∈ dict_keys (names finished)
       ↔ ∃ method_node, custom_queryset_method queryset_info method_name method_node)
  ∧ (∀ (method_name : string) (member : SymbolTableNode),
       dict_get (names finished) method_name = Some member →
       ∃ (cls : ClassBody) (method_node copy : FuncDef),
         cls ∈ classes_before_queryset (mro queryset_info)
         ∧ cb_fullname cls ≠ QUERYSET_CLASS_FULLNAME
         ∧ declares_method cls method_name method_node
         ∧ node member = Some (FuncDefNode copy)
         ∧ fd_name copy = method_name
         ∧ fd_info copy = fullname finished
         ∧ fd_self_type copy = Instance (type_ref finished) []
         ∧ fd_arg_types copy = fd_arg_types method_node
         ∧ fd_ret_type copy = fd_ret_type method_node)
  ∧ (NoDup (iter_all_custom_queryset_methods queryset_info).*1 →
     length (names finished)
     = length (iter_all_custom_queryset_methods queryset_info)).
Proof.
  intros Hfresh Hcopy.
  pose proof (copy_methods_header _ _ _ _ Hcopy) as Hhead.
  destruct (copy_methods_keys _ _ _ _ Hcopy) as [Hkeys Hnodup].
  rewrite Hfresh in Hkeys, Hnodup. simpl in Hkeys, Hnodup.
  split; [by rewrite Hhead|]. split; [by rewrite Hhead|]. split; [|split].
  - intros method_name. rewrite Hkeys, elem_of_nil. split.
    + intros [[]|([k f] & -> & Hin)%list_elem_of_fmap].
      exists f. by apply elem_of_iter_all_custom_queryset_methods.
    + intros [f Hf%elem_of_iter_all_custom_queryset_methods]. right.
      apply list_elem_of_fmap. by exists (method_name, f).
  - intros method_name member Hmember.
    destruct (copy_methods_lookup _ _ _ _ _ _ Hcopy Hmember) as [Hold|(f & Hin & ->)];
      [by rewrite Hfresh in Hold|].
    apply elem_of_iter_all_custom_queryset_methods in Hin as (cls & Hcls & Hdecl).
    exists cls, f. eexists. split; [done|].
    split; [by eapply classes_before_queryset_fullname|].
    split; [done|]. split; [done|]. simpl. by rewrite Hhead.
  - intros Hnd. rewrite <- (length_fmap fst (names finished)).
    change (names finished).*1 with (dict_keys (names finished)).
    by rewrite Hnodup, length_fmap.
Qed.


(** The class that [as_manager] publishes exposes the same methods. *)
Lemma as_manager_exposes_custom_methods
    (ctx : DynamicClassDefContext) (api api' : SemanticAnalyzer) (r : result unit) :
  create_manager_class_from_as_manager_method ctx api = (r, api') →
  progress api = false →
  progress api' = true →
  ∃ (queryset_info django_manager_info finished : TypeInfo) (sym : SymbolTableNode),
    resolve_as_manager ctx api = (Return (queryset_info, django_manager_info), api)
    ∧ dict_get
        (read_table api' (symbol_table_or_current api (Some GlobalsTable) false))
        (name queryset_info +:+ "_AsManager_" +:+ (as_manager_generic_param api).2)
      = Some sym
    ∧ node sym = Some (TypeInfoNode finished)
    ∧ (∀ method_name : string,
         method_name ∈ dict_keys (names finished)
         ↔ ∃ method_node, custom_queryset_method queryset_info method_name method_node)
    ∧ (∀ (method_name : string) (member : SymbolTableNode),
         dict_get (names finished) method_name = Some member →
         ∃ copy : FuncDef,
           node member = Some (FuncDefNode copy)
           ∧ fd_self_type copy = Instance (type_ref finished) []).
Proof.
  rewrite create_manager_class_from_as_manager_method_run.
  destruct (resolve_as_manager ctx api) as [[[q d]|e] api1] eqn:Hres.
  2: { destruct e; try (intros [= <- <-]; congruence).
       destruct (final_iteration api); intros [= <- <-]; simpl; congruence. }
  apply resolve_as_manager_state in Hres as Heq. subst api1.
  intros Hrun Hp Hp'.
  destruct (finish_manager_published _ _ _ _ _ _ _ _ _ _ Hrun Hp Hp')
    as (finished & sym & -> & Hcopy & Hget & Hnode).
  apply copied_class_exposes_custom_methods in Hcopy
    as (_ & _ & Hiff & Hmembers & _); [|done].
  exists q, d, finished, sym. repeat (split; [done|]).
  intros method_name member Hmember.
  destruct (Hmembers _ _ Hmember) as (_ & _ & copy & _ & _ & _ & ? & _ & _ & ? & _).
  eauto.
Qed.



End published_class.

(** ** Names *)

Section naming.
Context {fullnames : Fullnames} {host : SemanalHost}.

Lemma finish_manager_metadata ctx key_base queryset_info django_manager_info
    new_manager_info sym_name symbol_table api key :
  get_generated_manager_fullname (call ctx) key_base queryset_info = Return key →
  typeinfo_metadata
    (finish_manager ctx key_base queryset_info django_manager_info new_manager_info
       sym_name symbol_table api).2
  = registry_record django_manager_info key (fullname new_manager_info)
      (typeinfo_metadata api).
Proof.
  intros Hkey. unfold finish_manager. rewrite Hkey.
  destruct (copy_methods _ _ _) as [finished|e].
  - rewrite publish_manager_forced. simpl.
    destruct (_ && _); simpl.
    + by destruct (symbol_table_or_current _ _ _).
    + by destruct (final_iteration api).
  - destruct e; try done. by destruct (final_iteration api).
Qed.

Lemma as_manager_generic_param_name api :
  (as_manager_generic_param api).2 = enclosing_model_name api.
Proof.
  unfold as_manager_generic_param, enclosing_model_name.
  destruct (last (scope_classes api)) as [enclosing|]; [|done].
  by destruct (has_base enclosing MODEL_CLASS_FULLNAME).
Qed.

End naming.

(** ** The metadata registry *)

Section registry.
Context {fullnames : Fullnames} {host : SemanalHost}.

Lemma get_generated_managers_metadata_recorded django_manager_info key value md :
  get_generated_managers_metadata django_manager_info
    (registry_record django_manager_info key value md)
  = (Return (<[key := value]>
               (default ∅ (default ∅ (md !! fullname django_manager_info)
                             !! "from_queryset_managers"))),
     registry_record django_manager_info key value md).
Proof.
  unfold get_generated_managers_metadata, registry_record.
  rewrite lookup_insert_eq. simpl. by rewrite lookup_insert_eq.
Qed.

(** C6. Recording a generated manager is an idempotent upsert: after one
    [record] of a full name under the deterministic key, a second [record]
    of the same pair leaves the analyzer exactly as it is; the dictionary
    that [get_generated_managers_metadata] returns then holds the recorded
    full name under the key, and that is the only value it holds for the
    key. *)
Theorem registry_record_idempotent
    (ctx : DynamicClassDefContext) (new_manager_fullname key : string)
    (callee_manager_info queryset_info django_manager_info : TypeInfo)
    (api : SemanticAnalyzer) :
  get_generated_manager_fullname (call ctx) callee_manager_info queryset_info
  = Return key →
  ∃ (api1 : SemanticAnalyzer) (managers : gmap string string),
    record_new_manager_info_fullname_into_metadata ctx new_manager_fullname
      callee_manager_info queryset_info django_manager_info api = (Return tt, api1)
    ∧ record_new_manager_info_fullname_into_metadata ctx new_manager_fullname
        callee_manager_info queryset_info django_manager_info api1 = (Return tt, api1)
    ∧ with_metadata (get_generated_managers_metadata django_manager_info) api1
      = (Return managers, api1)
    ∧ managers !! key = Some new_manager_fullname
    ∧ (∀ value : string,
         (key, value) ∈ map_to_list managers ↔ value = new_manager_fullname)
    ∧ registry_lookup (typeinfo_metadata api1) django_manager_info key
      = Some new_manager_fullname.
Proof.
  intros Hkey. rewrite record_run, Hkey. eexists _, _.
  split; [done|]. split; [|split; [|split; [|split]]].
  - rewrite record_run, Hkey. simpl. by rewrite registry_record_idemp.
  - unfold with_metadata. simpl.
    rewrite get_generated_managers_metadata_recorded. by destruct api.
  - apply lookup_insert_eq.
  - intros value. rewrite elem_of_map_to_list, lookup_insert_eq. naive_solver.
  - apply registry_lookup_record.
Qed.
End registry.

(** ** Name resolution at the call site *)

Section resolution.
Context {fullnames : Fullnames} {host : SemanalHost}.

(** C4, as the code has it. A callee class that resolves to a placeholder
    raises the incomplete-definition exception. The queryset argument and
    the canonical manager class raise the bound-name-not-found exception
    exactly when their lookup finds nothing, finds a symbol without a node,
    or finds a placeholder; these two lookups never raise the
    incomplete-definition exception, and the callee never raises
    bound-name-not-found. *)
Theorem name_resolution_failures (ctx : DynamicClassDefContext) (api : SemanticAnalyzer) :
  (∀ (callee_expr : Expression) (member placeholder_fullname : string)
     (member_node : option SymbolNode),
     callee (call ctx) = MemberExpr callee_expr member member_node →
     ref_node callee_expr = Some (Some (PlaceholderNode placeholder_fullname)) →
     ∃ msg, resolve_callee_info_or_exception ctx api
            = (Raise (IncompleteDefnException msg), api))
  ∧ (∀ (passed_name : string) (passed_fullname : option string)
       (passed_node : option SymbolNode) (rest : list Expression),
       call_args (call ctx) = NameExpr passed_name passed_fullname passed_node :: rest →
       unusable_symbol (lookup_qualified api passed_name (call ctx)) = true
       ↔ resolve_passed_queryset_info_or_exception ctx api
         = (Raise (BoundNameNotFound passed_fullname), api))
  ∧ (unusable_symbol (lookup_fully_qualified_or_none api MANAGER_CLASS_FULLNAME) = true
     ↔ resolve_django_manager_info_or_exception ctx api
       = (Raise (BoundNameNotFound (Some MANAGER_CLASS_FULLNAME)), api))
  ∧ (∀ msg : string,
       (resolve_passed_queryset_info_or_exception ctx api).1
         ≠ Raise (IncompleteDefnException msg)
       ∧ (resolve_django_manager_info_or_exception ctx api).1
         ≠ Raise (IncompleteDefnException msg))
  ∧ (∀ missing : option string,
       (resolve_callee_info_or_exception ctx api).1 ≠ Raise (BoundNameNotFound missing)).
Proof.
  split; [|split; [|split; [|split]]].
  - intros callee_expr member fn member_node Hcallee Hnode.
    unfold resolve_callee_info_or_exception. rewrite Hcallee.
    destruct callee_expr; simplify_eq/=; eauto.
  - intros passed_name passed_fullname passed_node rest Hargs.
    unfold resolve_passed_queryset_info_or_exception, unusable_symbol, bind, get,
      raise, ret. rewrite Hargs.
    destruct (lookup_qualified api passed_name (call ctx)) as [sym|]; [|done].
    destruct (node sym) as [[]|]; simpl; split; intros; simplify_eq; done.
  - unfold resolve_django_manager_info_or_exception, unusable_symbol, bind, get,
      raise, ret.
    destruct (lookup_fully_qualified_or_none api MANAGER_CLASS_FULLNAME) as [sym|];
      [|done].
    destruct (node sym) as [[]|]; simpl; split; intros; simplify_eq; done.
  - intros msg.
    unfold resolve_passed_queryset_info_or_exception,
      resolve_django_manager_info_or_exception, bind, get, raise, ret.
    split; repeat case_match; simpl; congruence.
  - intros missing. unfold resolve_callee_info_or_exception, raise, ret.
    repeat case_match; simpl; congruence.
Qed.
End resolution.

(** ** The return-type resolver *)

Section resolver_facts.
Context {fullnames : Fullnames} {checker : CheckerHost}.

(** C7. When the resolver has found the canonical manager class and an
    instance as return type, a deterministic name that is absent from the
    registry makes it raise [ValueError]. When the name is present, the
    module part of the recorded full name is compared with the current
    module first: if they differ the assertion fails and no type is
    returned, and if they agree the result is the instance type of the
    class bound to the recorded class name in the current module. The
    resolver leaves the modules and the registry entries as they are. *)
Theorem resolver_registry_miss_is_error
    (ctx : MethodContext) (api : TypeChecker) (django_manager_info : TypeInfo)
    (arg_types queryset_args : list MypyType) (queryset_ref : TypeRef) (key : string) :
  lookup_fully_qualified_typeinfo api MANAGER_CLASS_FULLNAME = Some django_manager_info →
  mc_type ctx = CallableType arg_types (Instance queryset_ref queryset_args) →
  get_generated_manager_fullname (mc_context ctx) django_manager_info
    (instance_type api queryset_ref) = Return key →
  let run := instantiate_anonymous_queryset_from_as_manager ctx api in
  match registry_lookup (tc_typeinfo_metadata api) django_manager_info key with
  | None =>
      run.1 = Raise (ValueError (repr key +:+ " is not present in generated managers list"))
  | Some recorded =>
      let current_module := get_current_module run.2 in
      if String.eqb (rpartition_dot recorded).1.1 (mf_fullname current_module)
      then
        run.1 = match dict_get (mf_names current_module) (rpartition_dot recorded).2 with
                | Some sym => Return (Instance (node_ref (node sym)) [])
                | None => Raise (KeyError (rpartition_dot recorded).2)
                end
      else run.1 = Raise AssertionError
  end
  ∧ tc_modules run.2 = tc_modules api
  ∧ tc_tree run.2 = tc_tree api
  ∧ ∀ other : string,
      registry_lookup (tc_typeinfo_metadata run.2) django_manager_info other
      = registry_lookup (tc_typeinfo_metadata api) django_manager_info other.
Proof.
  intros Hmanager Htype Hkey run.
  destruct (get_generated_managers_metadata_lookup django_manager_info
              (tc_typeinfo_metadata api)) as (managers & md' & Hmeta & Hsame & Hkeep).
  set (api' := {| tc_typeinfo_metadata := md'; tc_modules := tc_modules api;
                  tc_tree := tc_tree api |}).
  assert (run
          = (match registry_lookup (tc_typeinfo_metadata api) django_manager_info key with
             | None =>
                 Raise (ValueError
                          (repr key +:+ " is not present in generated managers list"))
             | Some recorded =>
                 if String.eqb (rpartition_dot recorded).1.1
                      (mf_fullname (get_current_module api'))
                 then
                   match dict_get (mf_names (get_current_module api'))
                           (rpartition_dot recorded).2 with
                   | Some sym => Return (Instance (node_ref (node sym)) [])
                   | None => Raise (KeyError (rpartition_dot recorded).2)
                   end
                 else Raise AssertionError
             end, api')) as ->.
  { subst run.
    unfold instantiate_anonymous_queryset_from_as_manager, bind at 1, get at 1.
    rewrite Hmanager, Htype, Hkey.
    unfold bind at 1, with_checker_metadata. rewrite Hmeta, Hsame.
    destruct (registry_lookup (tc_typeinfo_metadata api) django_manager_info key)
      as [recorded|]; [|done].
    destruct (rpartition_dot recorded) as [[recorded_module sep] class_name]. simpl.
    unfold bind, get, assert, ret, raise. simpl. fold api'.
    destruct (String.eqb recorded_module _); simpl; [|done].
    by destruct (dict_get _ class_name). }
  simpl. split; [|done].
  destruct (registry_lookup (tc_typeinfo_metadata api) django_manager_info key)
    as [recorded|]; [|done].
  simpl. by destruct (String.eqb _ _).
Qed.
End resolver_facts.

(** ** The type of [request.user] *)

Section request_facts.
Context {Class_ : Type}.
Variables AbstractBaseUser AnonymousUser : Class_.
Variable lookup_class_typeinfo : TypeChecker -> Class_ -> option TypeInfo.

(** C10. When the two stock user classes resolve, the transform returns the
    default attribute type unchanged, and leaves the checker as it is, both
    when that type is not equal to the union of the abstract base user
    instance and the anonymous user instance and when the configured user
    model has no class type information. *)
Theorem request_user_default_kept
    (ctx : AttributeContext) (django_context : DjangoContext) (api : TypeChecker)
    (abstract_base_user_info anonymous_user_info : TypeInfo) :
  lookup_class_typeinfo api AbstractBaseUser = Some abstract_base_user_info →
  lookup_class_typeinfo api AnonymousUser = Some anonymous_user_info →
  MypyType_eqb (default_attr_type ctx)
    (UnionType [Instance (type_ref abstract_base_user_info) [];
                Instance (type_ref anonymous_user_info) []]) = false
  ∨ (∃ model_cls : Class_,
       get_model django_context (AUTH_USER_MODEL django_context) = Return model_cls
       ∧ lookup_class_typeinfo api model_cls = None) →
  set_auth_user_model_as_type_for_request_user AbstractBaseUser AnonymousUser
    lookup_class_typeinfo ctx django_context api
  = (Return (default_attr_type ctx), api).
Proof.
  intros Habstract Hanonymous Hcase.
  unfold set_auth_user_model_as_type_for_request_user, bind, get.
  rewrite Habstract, Hanonymous.
  destruct Hcase as [-> | (model_cls & -> & ->)]; [done|].
  by destruct (MypyType_eqb _ _).
Qed.
End request_facts.

(** * The properties on the small project *)

Section on_the_project.
#[local] Existing Instances example.django example.analyzer example.checker.



(** An explicit second argument replaces the default name. *)
Example explicit_name_is_used_verbatim :
  get_generated_manager_fullname
    {| callee := MemberExpr example.M_expr "from_queryset" None;
       call_args := [example.Q_expr example.Q_class; StrExpr "ActiveManager"];
       call_line := 21 |}
    example.M_class example.Q_class
  = Return "django.db.models.manager.ActiveManager".
Proof. reflexivity. Qed.



(** C4 as stated fails: [Q] is a placeholder in the symbol table, and the
    resolution of the queryset argument raises bound-name-not-found, which
    leaves the entry point although the analyzer is not on its final
    iteration. *)
Lemma placeholder_queryset_raises_bound_name_not_found :
  (∃ sym, lookup_qualified example.api_placeholder "Q" (call example.from_queryset_ctx)
          = Some sym
          ∧ node sym = Some (PlaceholderNode "app.models.Q"))
  ∧ final_iteration example.api_placeholder = false
  ∧ resolve_passed_queryset_info_or_exception example.from_queryset_ctx
      example.api_placeholder
    = (Raise (BoundNameNotFound (Some "app.models.Q")), example.api_placeholder)
  ∧ create_new_manager_class_from_from_queryset_method example.from_queryset_ctx
      example.api_placeholder
    = (Raise (BoundNameNotFound (Some "app.models.Q")), example.api_placeholder).
Proof.
  split; [by eexists|]. repeat (split; [reflexivity|]). reflexivity.
Qed.

Lemma name_resolution_failures_witness :
  unusable_symbol
    (lookup_qualified example.api_placeholder "Q" (call example.from_queryset_ctx)) = true
  ∧ resolve_passed_queryset_info_or_exception example.from_queryset_ctx
      example.api_placeholder
    = (Raise (BoundNameNotFound (Some "app.models.Q")), example.api_placeholder)
  ∧ ∃ msg,
      resolve_callee_info_or_exception example.placeholder_callee_ctx example.api0
      = (Raise (IncompleteDefnException msg), example.api0).
Proof.
  split; [reflexivity|]. split.
  - exact (proj1 (proj1 (proj2 (name_resolution_failures example.from_queryset_ctx
                                  example.api_placeholder))
                    "Q" (Some "app.models.Q") (Some (TypeInfoNode example.Q_class)) []
                    eq_refl)
             eq_refl).
  - exact (proj1 (name_resolution_failures example.placeholder_callee_ctx example.api0)
             _ "from_queryset" "app.models.M" None eq_refl eq_refl).
Defined.

(** While [active] is incomplete the run defers; on the final iteration
    the exception leaves the entry point. *)
Lemma incomplete_definition_deferred_or_reraised_witness :
  let msg := "Unresolved names in method 'active'" in
  let run :=
    create_new_manager_class_from_from_queryset_method
      example.from_queryset_ctx example.api_pending in
  incomplete_definition_in_from_queryset example.from_queryset_ctx
    example.api_pending msg
  ∧ run.1 = Return tt
  ∧ deferred run.2 = true.
Proof.
  intros msg run.
  assert (incomplete_definition_in_from_queryset example.from_queryset_ctx
            example.api_pending msg) as Harises.
  { right.
    exists example.M_class, example.Q_pending, example.Manager,
      example.NewManager_new, (example.recorded example.api_pending).
    repeat (split; [reflexivity|]). reflexivity. }
  split; [exact Harises|].
  exact (proj1 (incomplete_definition_deferred_or_reraised example.from_queryset_ctx
                  example.api_pending msg) Harises).
Defined.

Example incomplete_definition_reraised_on_final_iteration :
  (create_new_manager_class_from_from_queryset_method example.from_queryset_ctx
     (example.api_with (example.class_symbol example.Q_pending) true [])).1
  = Raise (IncompleteDefnException "Unresolved names in method 'active'").
Proof. reflexivity. Qed.

Lemma registry_record_idempotent_witness :
  get_generated_manager_fullname (call example.from_queryset_ctx)
    example.M_class example.Q_class = Return "django.db.models.manager.MFromQ"
  ∧ ∃ (api1 : SemanticAnalyzer) (managers : gmap string string),
      record_new_manager_info_fullname_into_metadata example.from_queryset_ctx
        "app.models.NewManager" example.M_class example.Q_class example.Manager
        example.api0 = (Return tt, api1)
      ∧ record_new_manager_info_fullname_into_metadata example.from_queryset_ctx
          "app.models.NewManager" example.M_class example.Q_class example.Manager
          api1 = (Return tt, api1)
      ∧ with_metadata (get_generated_managers_metadata example.Manager) api1
        = (Return managers, api1)
      ∧ managers !! "django.db.models.manager.MFromQ" = Some "app.models.NewManager"
      ∧ (∀ value : string,
           ("django.db.models.manager.MFromQ", value) ∈ map_to_list managers
           ↔ value = "app.models.NewManager")
      ∧ registry_lookup (typeinfo_metadata api1) example.Manager
          "django.db.models.manager.MFromQ" = Some "app.models.NewManager".
Proof.
  split; [reflexivity|].
  exact (registry_record_idempotent example.from_queryset_ctx "app.models.NewManager"
           "django.db.models.manager.MFromQ" example.M_class example.Q_class
           example.Manager example.api0 eq_refl).
Defined.

(** After the analyzer has run [Q.as_manager()], the checker resolves the
    call to the instance type of the generated class. *)
Lemma resolver_registry_miss_is_error_witness :
  let analyzed :=
    (create_manager_class_from_as_manager_method
       (example.as_manager_ctx example.Q_class) example.api0).2 in
  let api := example.checker_after analyzed in
  let run := instantiate_anonymous_queryset_from_as_manager example.as_manager_call api in
  lookup_fully_qualified_typeinfo api MANAGER_CLASS_FULLNAME = Some example.Manager
  ∧ mc_type example.as_manager_call
    = CallableType [] (Instance (type_ref example.Q_class) [])
  ∧ get_generated_manager_fullname (mc_context example.as_manager_call)
      example.Manager (instance_type api (type_ref example.Q_class))
    = Return "django.db.models.manager.ManagerFromQ"
  ∧ registry_lookup (tc_typeinfo_metadata api) example.Manager
      "django.db.models.manager.ManagerFromQ" = Some "app.models.Q_AsManager_Any"
  ∧ run.1 = Return (Instance {| ref_name := "Q_AsManager_Any";
                                ref_fullname := "app.models.Q_AsManager_Any" |} [])
  ∧ tc_modules run.2 = tc_modules api
  ∧ tc_tree run.2 = tc_tree api.
Proof.
  intros analyzed api run.
  pose proof (resolver_registry_miss_is_error example.as_manager_call api
                example.Manager [] [] (type_ref example.Q_class)
                "django.db.models.manager.ManagerFromQ" eq_refl eq_refl eq_refl)
    as Hresolver.
  cbv zeta in Hresolver. destruct Hresolver as (Hresult & Hmodules & Htree & _).
  do 4 (split; [reflexivity|]).
  split; [exact Hresult|]. split; [exact Hmodules|exact Htree].
Defined.

(** Without the analysis of the call, the checker fails. *)
Example resolver_fails_without_synthesis :
  (instantiate_anonymous_queryset_from_as_manager example.as_manager_call
     (example.checker_after example.api0)).1
  = Raise (ValueError
             "'django.db.models.manager.ManagerFromQ' is not present in generated managers list").
Proof. reflexivity. Qed.

(** [app.views] imported [NewManager] on an earlier pass; after the run of
    [from_queryset] in [app.models] its entry is the finished class. *)
Lemma insertion_repoints_references_and_retries_witness :
  let api1 := example.recorded example.api0 in
  let inserted :=
    add_symbol_table_node "NewManager" (manager_symbol example.NewManager_finished)
      None None true false api1 in
  resolve_from_queryset example.from_queryset_ctx example.api0
  = (Return (example.M_class, example.Q_class, example.Manager), example.api0)
  ∧ new_manager_typeinfo example.from_queryset_ctx example.M_class example.api0
    = (Return example.NewManager_new, example.api0)
  ∧ record_new_manager_info_fullname_into_metadata example.from_queryset_ctx
      (fullname example.NewManager_new) example.M_class example.Q_class example.Manager
      example.api0 = (Return tt, api1)
  ∧ copy_all_custom_queryset_methods example.NewManager_new
      (fill_typevars example.NewManager_new) example.Q_class api1
    = (Return example.NewManager_finished, api1)
  ∧ inserted = (Return true, inserted.2)
  ∧ ∃ api',
      create_new_manager_class_from_from_queryset_method example.from_queryset_ctx
        example.api0 = (Return tt, api')
      ∧ deferred api' = deferred example.api0
      ∧ ∃ module',
          other_modules api' !! 1 = Some ("app.views", module')
          ∧ dict_get (mf_names module') "NewManager"
            = Some (sym_copy (manager_symbol example.NewManager_finished)).
Proof.
  intros api1 inserted.
  destruct (insertion_repoints_references_and_retries
              (fullnames := example.django) (host := example.analyzer)
              example.from_queryset_ctx
              example.api0 api1 inserted.2 example.M_class example.Q_class
              example.Manager example.NewManager_new example.NewManager_finished true
              eq_refl eq_refl eq_refl eq_refl eq_refl)
    as (api' & Hrun & Hdeferred & Hrepoint).
  do 5 (split; [reflexivity|]).
  exists api'. split; [exact Hrun|]. split; [exact Hdeferred|].
  exact (Hrepoint 1 "app.views" example.views_module "NewManager"
           (example.class_symbol example.stale_NewManager) eq_refl
           ltac:(discriminate) eq_refl eq_refl).
Defined.

(** When [NewManager] is among the missing names the class is not
    inserted: another pass is requested, except on the final iteration. *)
Example refused_insertion_requests_another_pass :
  let run final :=
    create_new_manager_class_from_from_queryset_method example.from_queryset_ctx
      (example.api_missing final) in
  (run false).1 = Return tt
  ∧ deferred (run false).2 = true
  ∧ (run true).1 = Return tt
  ∧ deferred (run true).2 = false
  ∧ dict_get (globals (run false).2) "NewManager" = None
  ∧ other_modules (run true).2 = other_modules (example.api_missing true).
Proof. repeat split; reflexivity. Qed.


(** At module level the argument is [Any]. *)
Example as_manager_at_module_level_is_manager_of_any :
  ∃ (finished : TypeInfo) (sym : SymbolTableNode),
    dict_get
      (globals (create_manager_class_from_as_manager_method
                  (example.as_manager_ctx example.Q_class) example.api0).2)
      "Q_AsManager_Any" = Some sym
    ∧ node sym = Some (TypeInfoNode finished)
    ∧ bases finished = [Instance (type_ref example.Manager) [AnyType explicit]]
    ∧ dict_keys (names finished) = ["active"; "recent"].
Proof. eexists _, _. repeat split; reflexivity. Qed.

(** A request class with its own user type keeps it; so does the stock
    type when the user model of the project is unknown to the checker. *)
Lemma request_user_default_kept_witness :
  let ctx := {| default_attr_type := example.custom_user_type |} in
  example.lookup_typeinfo example.request_checker
    "django.contrib.auth.base_user.AbstractBaseUser"
  = Some example.AbstractBaseUser_info
  ∧ example.lookup_typeinfo example.request_checker
      "django.contrib.auth.models.AnonymousUser"
    = Some example.AnonymousUser_info
  ∧ MypyType_eqb (default_attr_type ctx) example.stock_user_type = false
  ∧ set_auth_user_model_as_type_for_request_user
      "django.contrib.auth.base_user.AbstractBaseUser"
      "django.contrib.auth.models.AnonymousUser"
      example.lookup_typeinfo ctx example.project example.request_checker
    = (Return example.custom_user_type, example.request_checker).
Proof.
  intros ctx. do 3 (split; [reflexivity|]).
  exact (request_user_default_kept
           "django.contrib.auth.base_user.AbstractBaseUser"
           "django.contrib.auth.models.AnonymousUser"
           example.lookup_typeinfo ctx example.project example.request_checker
           example.AbstractBaseUser_info example.AnonymousUser_info
           eq_refl eq_refl (or_introl eq_refl)).
Defined.

Example request_user_stock_type_kept_for_unknown_model :
  set_auth_user_model_as_type_for_request_user
    "django.contrib.auth.base_user.AbstractBaseUser"
    "django.contrib.auth.models.AnonymousUser"
    example.lookup_typeinfo {| default_attr_type := example.stock_user_type |}
    example.project example.request_checker
  = (Return example.stock_user_type, example.request_checker).
Proof. reflexivity. Qed.

(** The order of the items of the union does not matter to the
    comparison. *)
Example stock_union_in_other_order_is_equal :
  MypyType_eqb
    (UnionType (rev match example.stock_user_type with
                    | UnionType items => items
                    | _ => []
                    end))
    example.stock_user_type = true.
Proof. reflexivity. Qed.
End on_the_project.


(** * Further properties of the transformers *)

(** ** What the enumeration of the methods covers *)

Section enumeration_extent.
Context {fullnames : Fullnames}.

Lemma iter_custom_methods_of_mro_all (classes : list ClassBody) :
  (∀ cls, cls ∈ classes → cb_fullname cls ≠ QUERYSET_CLASS_FULLNAME) →
  iter_custom_methods_of_mro classes = flat_map class_funcdefs classes.
Proof.
  induction classes as [|cls classes IH]; simpl; [done|].
  intros Hall.
  assert (cb_fullname cls ≠ QUERYSET_CLASS_FULLNAME) as Hcls by (apply Hall; left).
  apply String.eqb_neq in Hcls as ->.
  rewrite IH; [done|]. intros c Hc. apply Hall. by right.
Qed.

(** X1. The generator stops at the first class of the resolution order
    that is the ORM's base queryset class: it yields the function
    definitions of the classes before it, in the order of the resolution
    order and of each class's names, and nothing of the classes after it,
    whatever they define. *)
Theorem custom_methods_stop_at_queryset_class
    (derived_queryset_info : TypeInfo) (before after : list ClassBody)
    (queryset_class : ClassBody) :
  mro derived_queryset_info = (before ++ queryset_class :: after)%list →
  cb_fullname queryset_class = QUERYSET_CLASS_FULLNAME →
  (∀ cls, cls ∈ before → cb_fullname cls ≠ QUERYSET_CLASS_FULLNAME) →
  iter_all_custom_queryset_methods derived_queryset_info
  = flat_map class_funcdefs before.
Proof.
  unfold iter_all_custom_queryset_methods. intros -> Hqueryset.
  induction before as [|cls before IH]; simpl; intros Hbefore.
  - by apply String.eqb_eq in Hqueryset as ->.
  - assert (cb_fullname cls ≠ QUERYSET_CLASS_FULLNAME) as Hcls by (apply Hbefore; left).
    apply String.eqb_neq in Hcls as ->.
    rewrite IH; [done|]. intros c Hc. apply Hbefore. by right.
Qed.

(** X2. For a class that has no base queryset class in its resolution
    order the generator never stops: it yields the function definitions of
    every class of the resolution order, the last ones included. *)
Theorem custom_methods_without_queryset_class (derived_queryset_info : TypeInfo) :
  (∀ cls, cls ∈ mro derived_queryset_info →
          cb_fullname cls ≠ QUERYSET_CLASS_FULLNAME) →
  iter_all_custom_queryset_methods derived_queryset_info
  = flat_map class_funcdefs (mro derived_queryset_info).
Proof. apply iter_custom_methods_of_mro_all. Qed.
End enumeration_extent.

(** ** The sweep over one module's names *)

Section sweep_facts.
Context (new_manager_info : TypeInfo) (new_manager_sym : SymbolTableNode).

Lemma repoint_names_unfold (module_names : SymbolTable) :
  repoint_names new_manager_info new_manager_sym module_names
  = fold_left (repoint_step new_manager_info new_manager_sym) module_names module_names.
Proof.
  unfold repoint_names. generalize module_names at 2 4. intros current.
  revert current.
  induction module_names as [|[k s] rest IH]; intros current; simpl; [done|].
  apply IH.
Qed.

Lemma repoint_fold_keys (items current : SymbolTable) :
  (∀ item, item ∈ items → item.1 ∈ dict_keys current) →
  dict_keys (fold_left (repoint_step new_manager_info new_manager_sym) items current)
  = dict_keys current.
Proof.
  revert current.
  induction items as [|[k s] items IH]; cbn [fold_left]; intros current Hin; [done|].
  assert (dict_keys (repoint_step new_manager_info new_manager_sym current (k, s))
          = dict_keys current) as Hstep.
  { unfold repoint_step. simpl. destruct (sym_fullname s) as [fn|]; [|done].
    destruct (String.eqb fn (fullname new_manager_info)); [|done].
    rewrite dict_keys_set.
    assert (is_Some (dict_get current k)) as [v ->]; [|done].
    apply dict_get_is_Some. apply (Hin (k, s)). left. }
  rewrite IH, Hstep; [done|].
  intros item Hitem. rewrite Hstep. apply Hin. by right.
Qed.

Lemma repoint_fold_lookup (items current : SymbolTable) (sym_name : string) :
  NoDup (dict_keys items) →
  dict_get (fold_left (repoint_step new_manager_info new_manager_sym) items current)
    sym_name
  = match dict_get items sym_name with
    | Some sym =>
        if bool_decide (sym_fullname sym = Some (fullname new_manager_info))
        then Some (sym_copy new_manager_sym)
        else dict_get current sym_name
    | None => dict_get current sym_name
    end.
Proof.
  revert current.
  induction items as [|[k s] items IH]; cbn [fold_left dict_get]; intros current Hnd;
    [done|].
  unfold dict_keys in Hnd. rewrite fmap_cons in Hnd. apply NoDup_cons in Hnd as [Hk Hnd].
  rewrite IH by done. destruct (String.eqb k sym_name) eqn:E.
  - apply String.eqb_eq in E as ->.
    assert (dict_get items sym_name = None) as ->.
    { destruct (dict_get items sym_name) eqn:Hget; [|done].
      exfalso. apply Hk. apply dict_get_is_Some. eauto. }
    unfold repoint_step. simpl. destruct (sym_fullname s) as [fn|]; simpl.
    + destruct (String.eqb fn (fullname new_manager_info)) eqn:Hfn.
      * apply String.eqb_eq in Hfn as ->.
        rewrite bool_decide_eq_true_2 by done. apply dict_get_set_eq.
      * apply String.eqb_neq in Hfn. rewrite bool_decide_eq_false_2; [done|].
        by intros [= ?].
    + done.
  - apply String.eqb_neq in E.
    assert (dict_get (repoint_step new_manager_info new_manager_sym current (k, s))
              sym_name = dict_get current sym_name) as ->; [|done].
    unfold repoint_step. simpl. destruct (sym_fullname s) as [fn|]; [|done].
    destruct (String.eqb fn (fullname new_manager_info)); [|done].
    by apply dict_get_set_ne.
Qed.

(** X3. The sweep over a module's names rebinds and never adds, removes or
    reorders: the table has the same names in the same order afterwards. *)
Theorem repoint_names_keeps_the_names (module_names : SymbolTable) :
  dict_keys (repoint_names new_manager_info new_manager_sym module_names)
  = dict_keys module_names.
Proof.
  rewrite repoint_names_unfold. apply repoint_fold_keys.
  intros [k s] Hin. simpl. apply dict_get_is_Some.
  clear -Hin. induction module_names as [|[k' s'] rest IH]; simpl.
  - by apply elem_of_nil in Hin.
  - destruct (String.eqb k' k) eqn:E; [eauto|].
    apply IH. apply elem_of_cons in Hin as [[= -> ->]|Hin]; [|done].
    by rewrite String.eqb_refl in E.
Qed.

(** X4. In a table whose names are distinct, as those of a dictionary are,
    the sweep replaces exactly the entries whose full name is that of the
    new class: such an entry becomes a copy of the new symbol, and every
    other entry, also one without a node, is the symbol it was. *)
Theorem repoint_names_replaces_exactly_the_matches
    (module_names : SymbolTable) (sym_name : string) :
  NoDup (dict_keys module_names) →
  dict_get (repoint_names new_manager_info new_manager_sym module_names) sym_name
  = (λ sym, if bool_decide (sym_fullname sym = Some (fullname new_manager_info))
            then sym_copy new_manager_sym else sym)
    <$> dict_get module_names sym_name.
Proof.
  intros Hnd. rewrite repoint_names_unfold, repoint_fold_lookup by done.
  destruct (dict_get module_names sym_name) as [sym|]; [|done]. simpl.
  by destruct (bool_decide _).
Qed.
End sweep_facts.

(** ** Insertion into a symbol table *)

Section insertion.
Context {fullnames : Fullnames} {host : SemanalHost}.

Lemma write_table_lookup (names_ref : TableRef) (table : SymbolTable)
    (api : SemanticAnalyzer) :
  read_table (write_table names_ref table api) names_ref = table.
Proof. by destruct names_ref. Qed.

(** X5. Whatever the context, [add_symbol_table_node] returns [True] only
    when it has bound the name: the name is not among the missing names
    and neither is the star, the chosen table then maps the name to the
    symbol and every other name to what it had, the progress flag is set,
    and there was no redefinition to refuse: no context, no existing
    binding, or a valid replacement. *)
Theorem added_symbol_is_bound
    (sym_name : string) (symbol : SymbolTableNode) (context : option CallExpr)
    (symbol_table : option TableRef) (can_defer escape_comprehensions : bool)
    (api api' : SemanticAnalyzer) :
  add_symbol_table_node sym_name symbol context symbol_table can_defer
    escape_comprehensions api = (Return true, api') →
  let names_ref := symbol_table_or_current api symbol_table escape_comprehensions in
  (sym_name ∉ missing_names api)
  ∧ ("*" ∉ missing_names api)
  ∧ dict_get (read_table api' names_ref) sym_name = Some symbol
  ∧ (∀ other : string,
       other ≠ sym_name →
       dict_get (read_table api' names_ref) other
       = dict_get (read_table api names_ref) other)
  ∧ progress api' = true
  ∧ (context = None
     ∨ dict_get (read_table api names_ref) sym_name = None
     ∨ ∃ existing, dict_get (read_table api names_ref) sym_name = Some existing
                   ∧ is_valid_replacement existing symbol = true).
Proof.
  intros Hrun names_ref.
  assert (∀ (api0 : SemanticAnalyzer) (missing : list string) (table : SymbolTable),
            table = read_table api names_ref →
            missing = missing_names api →
            (if bool_decide (sym_name ∉ missing) && bool_decide ("*" ∉ missing)
             then λ st : SemanticAnalyzer,
                    (Return true,
                     set_progress true
                       (write_table names_ref (dict_set table sym_name symbol) st))
             else λ st : SemanticAnalyzer, (Return false, st)) api0
            = (Return true, api') →
            (sym_name ∉ missing_names api) ∧ ("*" ∉ missing_names api)
            ∧ dict_get (read_table api' names_ref) sym_name = Some symbol
            ∧ (∀ other : string,
                 other ≠ sym_name →
                 dict_get (read_table api' names_ref) other
                 = dict_get (read_table api names_ref) other)
            ∧ progress api' = true) as Hadd.
  { intros api0 missing table -> ->.
    destruct (bool_decide (sym_name ∉ missing_names api)) eqn:H1; [|done].
    destruct (bool_decide ("*" ∉ missing_names api)) eqn:H2; [|done].
    apply bool_decide_eq_true in H1, H2. simpl. intros [= <-].
    split; [done|]. split; [done|]. split; [|split; [|done]].
    - replace (read_table (set_progress true _) names_ref)
        with (read_table
                (write_table names_ref
                   (dict_set (read_table api names_ref) sym_name symbol) api0)
                names_ref) by by destruct names_ref.
      rewrite write_table_lookup. apply dict_get_set_eq.
    - intros other Hother.
      replace (read_table (set_progress true _) names_ref)
        with (read_table
                (write_table names_ref
                   (dict_set (read_table api names_ref) sym_name symbol) api0)
                names_ref) by by destruct names_ref.
      rewrite write_table_lookup. by apply dict_get_set_ne. }
  revert Hrun. unfold add_symbol_table_node. run_monad. fold names_ref.
  destruct (is_PlaceholderNode (node symbol) && can_defer); simpl.
  all: destruct (dict_get (read_table api names_ref) sym_name) as [existing|] eqn:Hget.
  all: destruct context as [context_node|].
  all: try (intros Hrun; apply Hadd in Hrun as (? & ? & ? & ? & ?);
            [do 5 (split; [done|]); by eauto 6|by destruct names_ref|done]).
  all: destruct (is_valid_replacement existing symbol) eqn:Hvalid; simpl.
  all: try (intros Hrun; apply Hadd in Hrun as (? & ? & ? & ? & ?);
            [do 5 (split; [done|]); by eauto 6|by destruct names_ref|done]).
  all: clear Hadd; repeat case_match; intros; simplify_eq.
Qed.

(** X6. With [context=None] nothing is checked but the missing names: the
    call returns whether the name and the star are both absent from them,
    for any symbol and any existing binding; a refused call leaves the
    analyzer as it is, apart from the deferral that a placeholder symbol
    requests when [can_defer] is set. *)
Theorem forced_insertion_checks_only_missing_names
    (sym_name : string) (symbol : SymbolTableNode) (symbol_table : option TableRef)
    (can_defer escape_comprehensions : bool) (api : SemanticAnalyzer) :
  let run :=
    add_symbol_table_node sym_name symbol None symbol_table can_defer
      escape_comprehensions api in
  let after_defer :=
    if is_PlaceholderNode (node symbol) && can_defer then set_deferred true api else api in
  run.1 = Return (bool_decide (sym_name ∉ missing_names api)
                  && bool_decide ("*" ∉ missing_names api))
  ∧ (run.1 = Return false → run.2 = after_defer)
  ∧ deferred run.2 = deferred after_defer
  ∧ other_modules run.2 = other_modules api
  ∧ typeinfo_metadata run.2 = typeinfo_metadata api.
Proof.
  unfold add_symbol_table_node. run_monad.
  destruct (is_PlaceholderNode (node symbol) && can_defer); simpl.
  all: destruct (dict_get _ sym_name); simpl.
  all: destruct (bool_decide (sym_name ∉ missing_names api)); simpl.
  all: destruct (bool_decide ("*" ∉ missing_names api)); simpl.
  all: repeat split; try done; try (by destruct (symbol_table_or_current _ _ _)).
Qed.

(** X7. An empty symbol table passed as [symbol_table] counts as none: the
    call behaves as the call without the argument and works on the
    current symbol table. *)
Theorem empty_symbol_table_is_replaced_by_the_current_one
    (sym_name : string) (symbol : SymbolTableNode) (context : option CallExpr)
    (table : TableRef) (can_defer escape_comprehensions : bool)
    (api : SemanticAnalyzer) :
  read_table api table = [] →
  add_symbol_table_node sym_name symbol context (Some table) can_defer
    escape_comprehensions api
  = add_symbol_table_node sym_name symbol context None can_defer
      escape_comprehensions api.
Proof.
  intros Hempty. unfold add_symbol_table_node, bind at 1 4, get.
  unfold symbol_table_or_current. by rewrite Hempty.
Qed.

(** X8. With a context, an existing binding that the new symbol is not a
    valid replacement for is never overwritten by the call itself: the
    call does not return [True], and when the new symbol is a placeholder
    it returns [False] at once, having changed nothing but the deferral
    flag. *)
Theorem conflicting_redefinition_is_not_added
    (sym_name : string) (symbol existing : SymbolTableNode) (context_node : CallExpr)
    (symbol_table : option TableRef) (can_defer escape_comprehensions : bool)
    (api : SemanticAnalyzer) :
  dict_get
    (read_table api (symbol_table_or_current api symbol_table escape_comprehensions))
    sym_name = Some existing →
  is_valid_replacement existing symbol = false →
  let run :=
    add_symbol_table_node sym_name symbol (Some context_node) symbol_table can_defer
      escape_comprehensions api in
  run.1 ≠ Return true
  ∧ (is_PlaceholderNode (node symbol) = true →
     run = (Return false, if can_defer then set_deferred true api else api)).
Proof.
  intros Hget Hvalid. unfold add_symbol_table_node. run_monad.
  rewrite Hget, Hvalid. simpl. split.
  - destruct (is_PlaceholderNode (node symbol) && can_defer); simpl;
      repeat case_match; simpl; congruence.
  - intros ->. by destruct can_defer.
Qed.
End insertion.

(** ** The outcomes of a run *)

Section outcomes.
Context {fullnames : Fullnames} {host : SemanalHost}.

(** The three ways in which the phases after name resolution end. *)
Lemma finish_manager_outcome ctx key_base queryset_info django_manager_info
    new_manager_info sym_name symbol_table api r api' :
  finish_manager ctx key_base queryset_info django_manager_info new_manager_info
    sym_name symbol_table api = (r, api') →
  (progress api' = true ∧ r = Return tt ∧ deferred api' = deferred api
   ∧ sym_name ∉ missing_names api)
  ∨ (progress api' = progress api
     ∧ cur_mod_node api' = cur_mod_node api
     ∧ other_modules api' = other_modules api
     ∧ scope_names api' = scope_names api
     ∧ ((r = Return tt ∧ final_iteration api = false ∧ deferred api' = true)
        ∨ (r = Return tt ∧ final_iteration api = true ∧ deferred api' = deferred api
           ∧ ¬ ((sym_name ∉ missing_names api) ∧ ("*" ∉ missing_names api)))
        ∨ ((∃ e, r = Raise e) ∧ deferred api' = deferred api))).
Proof.
  unfold finish_manager.
  destruct (get_generated_manager_fullname _ _ _) as [key|e].
  2: { intros [= <- <-]. right. repeat (split; [done|]). right. right. by eauto. }
  destruct (copy_methods _ _ _) as [finished|e].
  - rewrite publish_manager_forced. simpl.
    destruct (bool_decide (sym_name ∉ missing_names api)) eqn:H1;
      destruct (bool_decide ("*" ∉ missing_names api)) eqn:H2; simpl;
      intros [= <- <-].
    + left. apply bool_decide_eq_true in H1.
      by destruct (symbol_table_or_current _ _ _).
    + right. apply bool_decide_eq_false in H2.
      destruct (final_iteration api) eqn:Hfinal; simpl; repeat (split; [done|]).
      * right. left. repeat (split; [done|]). tauto.
      * by left.
    + right. apply bool_decide_eq_false in H1.
      destruct (final_iteration api) eqn:Hfinal; simpl; repeat (split; [done|]).
      * right. left. repeat (split; [done|]). tauto.
      * by left.
    + right. apply bool_decide_eq_false in H1.
      destruct (final_iteration api) eqn:Hfinal; simpl; repeat (split; [done|]).
      * right. left. repeat (split; [done|]). tauto.
      * by left.
  - intros Hrun. right.
    destruct e;
      try (injection Hrun as <- <-; repeat (split; [done|]); right; right; by eauto).
    destruct (final_iteration api) eqn:Hfinal; injection Hrun as <- <-; simpl;
      repeat (split; [done|]).
    + right. right. eauto.
    + by left.
Qed.

Lemma entry_point_outcome (ctx : DynamicClassDefContext) (api api' : SemanticAnalyzer)
    (r : result unit) :
  create_new_manager_class_from_from_queryset_method ctx api = (r, api')
  ∨ create_manager_class_from_as_manager_method ctx api = (r, api') →
  (progress api' = true ∧ r = Return tt ∧ deferred api' = deferred api)
  ∨ (progress api' = progress api
     ∧ cur_mod_node api' = cur_mod_node api
     ∧ other_modules api' = other_modules api
     ∧ scope_names api' = scope_names api
     ∧ ((r = Return tt ∧ final_iteration api = false ∧ deferred api' = true)
        ∨ (r = Return tt ∧ final_iteration api = true ∧ deferred api' = deferred api)
        ∨ ((∃ e, r = Raise e) ∧ deferred api' = deferred api))).
Proof.
  assert (∀ e : exn,
            (match e with
             | IncompleteDefnException msg =>
                 if final_iteration api then (Raise (IncompleteDefnException msg), api)
                 else (Return tt, set_deferred true api)
             | _ => (Raise e, api)
             end) = (r, api') →
            progress api' = progress api
            ∧ cur_mod_node api' = cur_mod_node api
            ∧ other_modules api' = other_modules api
            ∧ scope_names api' = scope_names api
            ∧ ((r = Return tt ∧ final_iteration api = false ∧ deferred api' = true)
               ∨ (r = Return tt ∧ final_iteration api = true
                  ∧ deferred api' = deferred api)
               ∨ ((∃ e, r = Raise e) ∧ deferred api' = deferred api))) as Hraise.
  { intros e.
    destruct e; try (intros [= <- <-]; repeat (split; [done|]); right; right; eauto).
    destruct (final_iteration api) eqn:Hfinal; intros [= <- <-]; simpl;
      repeat (split; [done|]).
    - right. right. eauto.
    - by left. }
  intros [Hrun|Hrun].
  - rewrite create_new_manager_class_from_from_queryset_method_run in Hrun.
    destruct (resolve_from_queryset ctx api) as [[[[c q] d]|e] api1].
    + apply finish_manager_outcome in Hrun as [(? & ? & ? & _)|(? & ? & ? & ? & Hcase)];
        [by left|right].
      repeat (split; [done|]). destruct Hcase as [?|[(? & ? & ? & _)|?]]; auto.
    + right. apply (Hraise e). by destruct e.
  - rewrite create_manager_class_from_as_manager_method_run in Hrun.
    destruct (resolve_as_manager ctx api) as [[[q d]|e] api1].
    + apply finish_manager_outcome in Hrun as [(? & ? & ? & _)|(? & ? & ? & ? & Hcase)];
        [by left|right].
      repeat (split; [done|]). destruct Hcase as [?|[(? & ? & ? & _)|?]]; auto.
    + right. apply (Hraise e). by destruct e.
Qed.

(** X9. On the final iteration neither entry point asks for another pass,
    however the run ends: the deferral flag is what it was. *)
Theorem final_iteration_never_defers
    (ctx : DynamicClassDefContext) (api : SemanticAnalyzer) :
  final_iteration api = true →
  deferred (create_new_manager_class_from_from_queryset_method ctx api).2 = deferred api
  ∧ deferred (create_manager_class_from_as_manager_method ctx api).2 = deferred api.
Proof.
  intros Hfinal. split.
  - destruct (create_new_manager_class_from_from_queryset_method ctx api)
      as [r api'] eqn:Hrun.
    destruct (entry_point_outcome ctx api api' r (or_introl Hrun))
      as [(_ & _ & ?)|(_ & _ & _ & _ & [(_ & ? & _)|[(_ & _ & ?)|(_ & ?)]])];
      simpl; congruence.
  - destruct (create_manager_class_from_as_manager_method ctx api)
      as [r api'] eqn:Hrun.
    destruct (entry_point_outcome ctx api api' r (or_intror Hrun))
      as [(_ & _ & ?)|(_ & _ & _ & _ & [(_ & ? & _)|[(_ & _ & ?)|(_ & ?)]])];
      simpl; congruence.
Qed.


(** X11. A run of either entry point that ends in an exception has
    published nothing: no symbol table is changed, the progress flag is not
    set and no deferral is requested. *)
Theorem raising_run_publishes_nothing
    (ctx : DynamicClassDefContext) (api api' : SemanticAnalyzer) (e : exn) :
  create_new_manager_class_from_from_queryset_method ctx api = (Raise e, api')
  ∨ create_manager_class_from_as_manager_method ctx api = (Raise e, api') →
  progress api' = progress api
  ∧ deferred api' = deferred api
  ∧ cur_mod_node api' = cur_mod_node api
  ∧ other_modules api' = other_modules api
  ∧ scope_names api' = scope_names api.
Proof.
  intros Hrun.
  destruct (entry_point_outcome ctx api api' (Raise e) Hrun)
    as [(_ & ? & _)|(? & ? & ? & ? & [(? & _)|[(? & _)|(_ & ?)]])]; done.
Qed.
End outcomes.

(** ** What name resolution passes on *)

Section resolution_order.
Context {fullnames : Fullnames} {host : SemanalHost}.



(** X12. The callee is resolved before anything else is looked at: when it
    is a placeholder and the analyzer is not on its final iteration, both
    entry points defer and change nothing else, whatever the arguments of
    the call are and whatever the lookups of the queryset and of the
    manager class would find. *)
Theorem placeholder_callee_defers_before_any_lookup
    (ctx : DynamicClassDefContext) (api : SemanticAnalyzer)
    (callee_expr : Expression) (member placeholder_fullname : string)
    (member_node : option SymbolNode) :
  callee (call ctx) = MemberExpr callee_expr member member_node →
  ref_node callee_expr = Some (Some (PlaceholderNode placeholder_fullname)) →
  final_iteration api = false →
  create_new_manager_class_from_from_queryset_method ctx api
  = (Return tt, set_deferred true api)
  ∧ create_manager_class_from_as_manager_method ctx api
    = (Return tt, set_deferred true api).
Proof.
  intros Hcallee Hnode Hfinal.
  assert (∃ msg, resolve_callee_info_or_exception ctx api
                 = (Raise (IncompleteDefnException msg), api)) as [msg Hres].
  { unfold resolve_callee_info_or_exception. rewrite Hcallee.
    destruct callee_expr; simplify_eq/=; eauto. }
  split.
  - rewrite create_new_manager_class_from_from_queryset_method_run.
    unfold resolve_from_queryset, bind at 1. by rewrite Hres, Hfinal.
  - rewrite create_manager_class_from_as_manager_method_run.
    unfold resolve_as_manager, bind at 1. by rewrite Hres, Hfinal.
Qed.

(** X13. [from_queryset] takes its queryset from a plain name only: once
    the callee is resolved, a call without arguments ends in [IndexError]
    and a call whose first argument is not a [NameExpr], a dotted
    reference for one, ends in [AssertionError]; in both cases the analyzer
    is left as it is, without a deferral. *)
Theorem from_queryset_argument_must_be_a_name
    (ctx : DynamicClassDefContext) (api : SemanticAnalyzer)
    (callee_manager_info : TypeInfo) :
  resolve_callee_info_or_exception ctx api = (Return callee_manager_info, api) →
  (call_args (call ctx) = [] →
   create_new_manager_class_from_from_queryset_method ctx api = (Raise IndexError, api))
  ∧ (∀ (first : Expression) (rest : list Expression),
       call_args (call ctx) = first :: rest →
       (∀ short_name qualified target, first ≠ NameExpr short_name qualified target) →
       create_new_manager_class_from_from_queryset_method ctx api
       = (Raise AssertionError, api)).
Proof.
  intros Hcallee. split.
  - intros Hargs. rewrite create_new_manager_class_from_from_queryset_method_run.
    unfold resolve_from_queryset, bind at 1. rewrite Hcallee.
    unfold bind at 1, resolve_passed_queryset_info_or_exception. by rewrite Hargs.
  - intros first rest Hargs Hfirst.
    rewrite create_new_manager_class_from_from_queryset_method_run.
    unfold resolve_from_queryset, bind at 1. rewrite Hcallee.
    unfold bind at 1, resolve_passed_queryset_info_or_exception. rewrite Hargs.
    destruct first as [short_name qualified target| | |]; try done.
    by destruct (Hfirst short_name qualified target).
Qed.

(** X14. A second argument of [from_queryset] that is not a string literal
    ends the run in [AssertionError] after the names are resolved: nothing
    is recorded, nothing is published and no deferral is requested. *)
Theorem from_queryset_explicit_name_must_be_a_string
    (ctx : DynamicClassDefContext) (api : SemanticAnalyzer)
    (callee_manager_info queryset_info django_manager_info : TypeInfo)
    (explicit_name : Expression) :
  resolve_from_queryset ctx api
  = (Return (callee_manager_info, queryset_info, django_manager_info), api) →
  explicit_name_argument (call ctx) = Some explicit_name →
  (∀ value, explicit_name ≠ StrExpr value) →
  create_new_manager_class_from_from_queryset_method ctx api = (Raise AssertionError, api).
Proof.
  intros Hres Hexplicit Hstr.
  rewrite create_new_manager_class_from_from_queryset_method_run, Hres.
  unfold finish_manager, get_generated_manager_fullname.
  unfold explicit_name_argument in Hexplicit.
  destruct (call_args (call ctx)) as [|first [|second rest]]; try done.
  injection Hexplicit as ->.
  destruct explicit_name; try done. by destruct (Hstr value).
Qed.

End resolution_order.

(** ** What the registry keeps *)

Section registry_contents.
Context {fullnames : Fullnames} {host : SemanalHost}.

Lemma append_inj_r (prefix s1 s2 : string) :
  prefix +:+ s1 = prefix +:+ s2 → s1 = s2.
Proof. induction prefix as [|c prefix IH]; simpl; [done|]. intros [= ?]. auto. Qed.

Lemma registry_lookup_record_ne django_manager_info key other value md :
  key ≠ other →
  registry_lookup (registry_record django_manager_info key value md)
    django_manager_info other
  = registry_lookup md django_manager_info other.
Proof.
  intros Hne. unfold registry_lookup, registry_record.
  rewrite lookup_insert_eq. simpl. rewrite lookup_insert_eq. simpl.
  rewrite lookup_insert_ne by done.
  by destruct (default ∅ (md !! fullname django_manager_info)
               !! "from_queryset_managers").
Qed.

Lemma registry_record_other_class django_manager_info key value md
    (other_fullname : string) :
  other_fullname ≠ fullname django_manager_info →
  registry_record django_manager_info key value md !! other_fullname
  = md !! other_fullname.
Proof. intros Hne. unfold registry_record. by rewrite lookup_insert_ne. Qed.

Lemma registry_record_other_metadata django_manager_info key value md
    (metadata_key : string) :
  metadata_key ≠ "from_queryset_managers" →
  default ∅ (registry_record django_manager_info key value md
             !! fullname django_manager_info) !! metadata_key
  = default ∅ (md !! fullname django_manager_info) !! metadata_key.
Proof.
  intros Hne. unfold registry_record. rewrite lookup_insert_eq. simpl.
  by rewrite lookup_insert_ne.
Qed.

(** X16. Once [from_queryset] has resolved its names and computed the key,
    the registry of the canonical manager class maps the key to the target
    name of the assignment in the current module, whatever was recorded
    before and however the run ends; every other key of that registry,
    every other metadata entry of the class and the metadata of every
    other class are as before. *)
Theorem from_queryset_records_the_target_name
    (ctx : DynamicClassDefContext) (api : SemanticAnalyzer)
    (callee_manager_info queryset_info django_manager_info : TypeInfo)
    (key : string) :
  resolve_from_queryset ctx api
  = (Return (callee_manager_info, queryset_info, django_manager_info), api) →
  get_generated_manager_fullname (call ctx) callee_manager_info queryset_info
  = Return key →
  let before := typeinfo_metadata api in
  let after :=
    typeinfo_metadata (create_new_manager_class_from_from_queryset_method ctx api).2 in
  registry_lookup after django_manager_info key
  = Some (cur_mod_id api +:+ "." +:+ ctx_name ctx)
  ∧ (∀ other : string,
       other ≠ key →
       registry_lookup after django_manager_info other
       = registry_lookup before django_manager_info other)
  ∧ (∀ metadata_key : string,
       metadata_key ≠ "from_queryset_managers" →
       default ∅ (after !! fullname django_manager_info) !! metadata_key
       = default ∅ (before !! fullname django_manager_info) !! metadata_key)
  ∧ (∀ other_fullname : string,
       other_fullname ≠ fullname django_manager_info →
       after !! other_fullname = before !! other_fullname).
Proof.
  intros Hres Hkey before after. subst before after.
  rewrite create_new_manager_class_from_from_queryset_method_run, Hres.
  rewrite (finish_manager_metadata _ _ _ _ _ _ _ _ _ Hkey). simpl.
  split; [apply registry_lookup_record|]. split; [|split].
  - intros other Hother. by apply registry_lookup_record_ne.
  - intros metadata_key Hne. by apply registry_record_other_metadata.
  - intros other_fullname Hne. by apply registry_record_other_class.
Qed.

(** X17. The registry has one entry per queryset for the as-manager shape:
    the key of a call [Q.as_manager()] does not depend on the enclosing
    class, while the name of the generated class does. When the call is
    analyzed in a second model, the entry that the first model left is
    replaced by the class of the second, which is a different class. *)
Theorem as_manager_registry_has_one_entry_per_queryset
    (ctx_a ctx_b : DynamicClassDefContext) (api_a api_b : SemanticAnalyzer)
    (queryset_info django_manager_info : TypeInfo) :
  resolve_as_manager ctx_a api_a = (Return (queryset_info, django_manager_info), api_a) →
  resolve_as_manager ctx_b api_b = (Return (queryset_info, django_manager_info), api_b) →
  explicit_name_argument (call ctx_a) = None →
  explicit_name_argument (call ctx_b) = None →
  cur_mod_id api_a = cur_mod_id api_b →
  enclosing_model_name api_a ≠ enclosing_model_name api_b →
  typeinfo_metadata api_b
  = typeinfo_metadata (create_manager_class_from_as_manager_method ctx_a api_a).2 →
  let key :=
    "django.db.models.manager." +:+ name django_manager_info +:+ "From"
      +:+ name queryset_info in
  let class_of api :=
    cur_mod_id api +:+ "." +:+ name queryset_info +:+ "_AsManager_"
      +:+ enclosing_model_name api in
  registry_lookup (typeinfo_metadata api_b) django_manager_info key
  = Some (class_of api_a)
  ∧ registry_lookup
      (typeinfo_metadata (create_manager_class_from_as_manager_method ctx_b api_b).2)
      django_manager_info key
    = Some (class_of api_b)
  ∧ class_of api_a ≠ class_of api_b.
Proof.
  intros Hres_a Hres_b Hnone_a Hnone_b Hmod Hmodel Hmd key class_of.
  assert (∀ ctx, explicit_name_argument (call ctx) = None →
                 get_generated_manager_fullname (call ctx) django_manager_info
                   queryset_info = Return key) as Hkey.
  { intros ctx. unfold explicit_name_argument, get_generated_manager_fullname.
    by destruct (call_args (call ctx)) as [|first [|second rest]]. }
  assert (∀ ctx api,
            resolve_as_manager ctx api
            = (Return (queryset_info, django_manager_info), api) →
            explicit_name_argument (call ctx) = None →
            registry_lookup
              (typeinfo_metadata (create_manager_class_from_as_manager_method ctx api).2)
              django_manager_info key = Some (class_of api)) as Hrun.
  { intros ctx api Hres Hnone.
    rewrite create_manager_class_from_as_manager_method_run, Hres. simpl.
    rewrite (finish_manager_metadata _ _ _ _ _ _ _ _ _ (Hkey ctx Hnone)).
    rewrite registry_lookup_record. simpl.
    by rewrite as_manager_generic_param_name. }
  split; [|split].
  - rewrite Hmd. by apply Hrun.
  - by apply Hrun.
  - subst class_of. simpl. rewrite Hmod. intros Heq.
    apply append_inj_r in Heq. apply (append_inj_r ".") in Heq.
    apply append_inj_r in Heq. by apply (append_inj_r "_AsManager_") in Heq.
Qed.

(** X18. [get_generated_managers_metadata] creates the registry on demand
    and is otherwise a read: the dictionary it returns is the one stored
    under ['from_queryset_managers'] afterwards, a second call returns the
    same dictionary and changes nothing, no entry appears or disappears,
    and the metadata of other classes is not touched. *)
Theorem get_generated_managers_metadata_creates_once
    (django_manager_info : TypeInfo) (md : Metadata) :
  let first := get_generated_managers_metadata django_manager_info md in
  ∃ managers : gmap string string,
    first.1 = Return managers
    ∧ default ∅ (first.2 !! fullname django_manager_info) !! "from_queryset_managers"
      = Some managers
    ∧ get_generated_managers_metadata django_manager_info first.2 = first
    ∧ (∀ key : string, managers !! key = registry_lookup md django_manager_info key)
    ∧ (∀ other_fullname : string,
         other_fullname ≠ fullname django_manager_info →
         first.2 !! other_fullname = md !! other_fullname).
Proof.
  unfold get_generated_managers_metadata, registry_lookup.
  destruct (default ∅ (md !! fullname django_manager_info) !! "from_queryset_managers")
    as [managers|] eqn:E; simpl.
  - exists managers. rewrite E. done.
  - exists ∅. split; [done|].
    rewrite lookup_insert_eq. simpl. rewrite lookup_insert_eq.
    split; [done|]. split; [done|]. split; [done|].
    intros other_fullname Hne. by rewrite lookup_insert_ne.
Qed.
End registry_contents.

(** ** From the analyzer to the checker *)

Section round_trip.
Context {fullnames : Fullnames} {host : SemanalHost} {checker : CheckerHost}.





End round_trip.

(** ** The request transform on every input *)

Section request_outcomes.
Context {Class_ : Type}.
Variables AbstractBaseUser AnonymousUser : Class_.
Variable lookup_class_typeinfo : TypeChecker -> Class_ -> option TypeInfo.

(** X20. The transform never narrows: whenever it returns a type, the type
    is the default attribute type of the context, and the checker is left
    as it is. *)
Theorem request_user_is_never_narrowed
    (ctx : AttributeContext) (django_context : DjangoContext) (api api' : TypeChecker)
    (returned : MypyType) :
  set_auth_user_model_as_type_for_request_user AbstractBaseUser AnonymousUser
    lookup_class_typeinfo ctx django_context api = (Return returned, api') →
  returned = default_attr_type ctx ∧ api' = api.
Proof.
  unfold set_auth_user_model_as_type_for_request_user, bind, get, ret, raise.
  repeat case_match; by intros [= <- <-].
Qed.

(** X21. For the stock user type and a user model that the checker knows,
    the case the transform is written for, the run ends in [NameError]:
    the last line reads [user_info], a name that is bound nowhere. *)
Theorem request_user_known_model_raises_name_error
    (ctx : AttributeContext) (django_context : DjangoContext) (api : TypeChecker)
    (abstract_base_user_info anonymous_user_info model_info : TypeInfo)
    (model_cls : Class_) :
  lookup_class_typeinfo api AbstractBaseUser = Some abstract_base_user_info →
  lookup_class_typeinfo api AnonymousUser = Some anonymous_user_info →
  MypyType_eqb (default_attr_type ctx)
    (UnionType [Instance (type_ref abstract_base_user_info) [];
                Instance (type_ref anonymous_user_info) []]) = true →
  get_model django_context (AUTH_USER_MODEL django_context) = Return model_cls →
  lookup_class_typeinfo api model_cls = Some model_info →
  set_auth_user_model_as_type_for_request_user AbstractBaseUser AnonymousUser
    lookup_class_typeinfo ctx django_context api
  = (Raise (NameError "user_info"), api).
Proof.
  intros Habstract Hanonymous Hstock Hmodel Hinfo.
  unfold set_auth_user_model_as_type_for_request_user, bind, get.
  by rewrite Habstract, Hanonymous, Hstock, Hmodel, Hinfo.
Qed.
End request_outcomes.

(** ** Where the class is bound *)

Section binding_place.
Context {fullnames : Fullnames} {host : SemanalHost}.


End binding_place.

(** * The further properties on the small project *)

Section further_on_the_project.
#[local] Existing Instances example.django example.analyzer example.checker.

(** [class MixedQ(QuerySet, Mixin)]: the method of the mixin, which comes
    after the base queryset class, is not enumerated. *)
Lemma custom_methods_stop_at_queryset_class_witness :
  mro example.MixedQ
  = ([class_body example.MixedQ]
       ++ example.QuerySet_body :: [example.Mixin_body; example.object_body])%list
  ∧ cb_fullname example.QuerySet_body = QUERYSET_CLASS_FULLNAME
  ∧ iter_all_custom_queryset_methods example.MixedQ
    = flat_map class_funcdefs [class_body example.MixedQ].
Proof.
  do 2 (split; [reflexivity|]).
  apply (custom_methods_stop_at_queryset_class (fullnames := example.django)
           example.MixedQ [class_body example.MixedQ]
           [example.Mixin_body; example.object_body] example.QuerySet_body
           eq_refl eq_refl).
  intros cls Hin. apply list_elem_of_singleton in Hin. rewrite Hin. discriminate.
Defined.

(** A class outside the queryset hierarchy gives the methods of [object]
    too. *)
Lemma custom_methods_without_queryset_class_witness :
  (iter_all_custom_queryset_methods example.PlainQ).*1 = ["active"; "__init__"]
  ∧ iter_all_custom_queryset_methods example.PlainQ
    = flat_map class_funcdefs (mro example.PlainQ).
Proof.
  split; [reflexivity|].
  apply (custom_methods_without_queryset_class (fullnames := example.django)
           example.PlainQ).
  intros cls Hin.
  apply elem_of_cons in Hin as [Hin|Hin]; [rewrite Hin; discriminate|].
  apply list_elem_of_singleton in Hin. rewrite Hin. discriminate.
Defined.

(** In [app.views] the stale [NewManager] is rebound and [render] is as
    before. *)
Lemma repoint_names_replaces_exactly_the_matches_witness :
  let swept :=
    repoint_names example.NewManager_finished
      (manager_symbol example.NewManager_finished) (mf_names example.views_module) in
  dict_keys (mf_names example.views_module) = ["render"; "NewManager"]
  ∧ dict_get swept "NewManager"
    = Some (sym_copy (manager_symbol example.NewManager_finished))
  ∧ dict_get swept "render" = dict_get (mf_names example.views_module) "render".
Proof.
  intros swept. split; [reflexivity|].
  assert (NoDup (dict_keys (mf_names example.views_module))) as Hdistinct.
  { apply (bool_decide_unpack _). vm_compute. exact I. }
  split.
  - exact (repoint_names_replaces_exactly_the_matches example.NewManager_finished
             (manager_symbol example.NewManager_finished)
             (mf_names example.views_module) "NewManager" Hdistinct).
  - exact (repoint_names_replaces_exactly_the_matches example.NewManager_finished
             (manager_symbol example.NewManager_finished)
             (mf_names example.views_module) "render" Hdistinct).
Defined.

(** [NewManager] added with the call as context: it is bound in the
    globals and [M] is as before. *)
Lemma added_symbol_is_bound_witness :
  let symbol := manager_symbol example.NewManager_finished in
  let run :=
    add_symbol_table_node "NewManager" symbol (Some (call example.from_queryset_ctx))
      None true false example.api0 in
  run.1 = Return true
  ∧ dict_get (globals run.2) "NewManager" = Some symbol
  ∧ dict_get (globals run.2) "M" = dict_get (globals example.api0) "M"
  ∧ progress run.2 = true.
Proof.
  intros symbol run. split; [reflexivity|].
  pose proof (added_symbol_is_bound "NewManager" symbol
                (Some (call example.from_queryset_ctx)) None true false
                example.api0 run.2 eq_refl) as Hadded.
  cbv zeta in Hadded. destruct Hadded as (_ & _ & Hbound & Hother & Hprogress & _).
  split; [exact Hbound|]. split; [|exact Hprogress].
  apply (Hother "M"). discriminate.
Defined.

(** In a class body of a module without globals, the globals passed as
    [symbol_table] are replaced by the table of the class body. *)
Lemma empty_symbol_table_is_replaced_by_the_current_one_witness :
  let symbol := manager_symbol example.NewManager_finished in
  read_table example.api_in_class_of_empty_module GlobalsTable = []
  ∧ add_symbol_table_node "NewManager" symbol None (Some GlobalsTable) true false
      example.api_in_class_of_empty_module
    = add_symbol_table_node "NewManager" symbol None None true false
        example.api_in_class_of_empty_module
  ∧ globals
      (add_symbol_table_node "NewManager" symbol None (Some GlobalsTable) true false
         example.api_in_class_of_empty_module).2 = [].
Proof.
  intros symbol. split; [reflexivity|]. split; [|reflexivity].
  exact (empty_symbol_table_is_replaced_by_the_current_one "NewManager" symbol None
           GlobalsTable true false example.api_in_class_of_empty_module eq_refl).
Defined.

(** A class generated under the name [M], which [app.models] binds to
    another class, is not added. *)
Lemma conflicting_redefinition_is_not_added_witness :
  let symbol := manager_symbol example.NewManager_finished in
  let run :=
    add_symbol_table_node "M" symbol (Some (call example.from_queryset_ctx)) None true
      false example.api0 in
  dict_get (globals example.api0) "M" = Some (example.class_symbol example.M_class)
  ∧ is_valid_replacement (example.class_symbol example.M_class) symbol = false
  ∧ run.1 ≠ Return true.
Proof.
  intros symbol run. do 2 (split; [reflexivity|]).
  exact (proj1 (conflicting_redefinition_is_not_added "M" symbol
                  (example.class_symbol example.M_class)
                  (call example.from_queryset_ctx) None true false example.api0
                  eq_refl eq_refl)).
Defined.

(** On the final iteration, with [active] of [Q] incomplete, neither entry
    point defers. *)
Lemma final_iteration_never_defers_witness :
  let api := example.api_with (example.class_symbol example.Q_pending) true [] in
  final_iteration api = true
  ∧ deferred
      (create_new_manager_class_from_from_queryset_method example.from_queryset_ctx api).2
    = false
  ∧ deferred
      (create_manager_class_from_as_manager_method example.from_queryset_ctx api).2
    = false.
Proof.
  intros api. split; [reflexivity|].
  exact (final_iteration_never_defers example.from_queryset_ctx api eq_refl).
Defined.


(** The run that raises for the placeholder [Q] leaves flags and tables as
    they were. *)
Lemma raising_run_publishes_nothing_witness :
  let run :=
    create_new_manager_class_from_from_queryset_method example.from_queryset_ctx
      example.api_placeholder in
  run.1 = Raise (BoundNameNotFound (Some "app.models.Q"))
  ∧ progress run.2 = progress example.api_placeholder
  ∧ deferred run.2 = deferred example.api_placeholder
  ∧ cur_mod_node run.2 = cur_mod_node example.api_placeholder
  ∧ other_modules run.2 = other_modules example.api_placeholder
  ∧ scope_names run.2 = scope_names example.api_placeholder.
Proof.
  intros run. split; [reflexivity|].
  exact (raising_run_publishes_nothing example.from_queryset_ctx
           example.api_placeholder run.2 (BoundNameNotFound (Some "app.models.Q"))
           (or_introl eq_refl)).
Defined.

Lemma placeholder_callee_defers_before_any_lookup_witness :
  final_iteration example.api_placeholder = false
  ∧ create_new_manager_class_from_from_queryset_method example.placeholder_callee_ctx
      example.api_placeholder
    = (Return tt, set_deferred true example.api_placeholder)
  ∧ create_manager_class_from_as_manager_method example.placeholder_callee_ctx
      example.api_placeholder
    = (Return tt, set_deferred true example.api_placeholder).
Proof.
  split; [reflexivity|].
  exact (placeholder_callee_defers_before_any_lookup example.placeholder_callee_ctx
           example.api_placeholder _ "from_queryset" "app.models.M" None
           eq_refl eq_refl eq_refl).
Defined.

(** [M.from_queryset(models.Q)] fails the assertion although the reference
    resolves to the class [Q]. *)
Lemma from_queryset_argument_must_be_a_name_witness :
  resolve_callee_info_or_exception example.dotted_queryset_ctx example.api0
  = (Return example.M_class, example.api0)
  ∧ create_new_manager_class_from_from_queryset_method example.dotted_queryset_ctx
      example.api0
    = (Raise AssertionError, example.api0).
Proof.
  split; [reflexivity|].
  apply (proj2 (from_queryset_argument_must_be_a_name example.dotted_queryset_ctx
                  example.api0 example.M_class eq_refl)
           (MemberExpr (NameExpr "models" (Some "app.models") None) "Q"
              (Some (TypeInfoNode example.Q_class)))
           [] eq_refl).
  intros short_name qualified target. discriminate.
Defined.

Lemma from_queryset_explicit_name_must_be_a_string_witness :
  resolve_from_queryset example.named_by_variable_ctx example.api0
  = (Return (example.M_class, example.Q_class, example.Manager), example.api0)
  ∧ create_new_manager_class_from_from_queryset_method example.named_by_variable_ctx
      example.api0
    = (Raise AssertionError, example.api0).
Proof.
  split; [reflexivity|].
  apply (from_queryset_explicit_name_must_be_a_string
           (fullnames := example.django) (host := example.analyzer)
           example.named_by_variable_ctx example.api0 example.M_class example.Q_class example.Manager
           (NameExpr "manager_name" (Some "app.models.manager_name")
              (Some (VarNode "app.models.manager_name")))
           eq_refl eq_refl).
  intros value. discriminate.
Defined.


Lemma from_queryset_records_the_target_name_witness :
  resolve_from_queryset example.from_queryset_ctx example.api0
  = (Return (example.M_class, example.Q_class, example.Manager), example.api0)
  ∧ get_generated_manager_fullname (call example.from_queryset_ctx) example.M_class
      example.Q_class
    = Return "django.db.models.manager.MFromQ"
  ∧ registry_lookup
      (typeinfo_metadata
         (create_new_manager_class_from_from_queryset_method example.from_queryset_ctx
            example.api0).2)
      example.Manager "django.db.models.manager.MFromQ"
    = Some "app.models.NewManager".
Proof.
  do 2 (split; [reflexivity|]).
  exact (proj1 (from_queryset_records_the_target_name example.from_queryset_ctx
                  example.api0 example.M_class example.Q_class example.Manager
                  "django.db.models.manager.MFromQ" eq_refl eq_refl)).
Defined.

(** [objects = Q.as_manager()] in [Article] and then in [Comment]: the one
    entry of the registry names the class of [Article] first and the class
    of [Comment] afterwards. *)
Lemma as_manager_registry_has_one_entry_per_queryset_witness :
  let ctx := example.as_manager_ctx example.Q_class in
  enclosing_model_name example.api_in_Article = "Article"
  ∧ enclosing_model_name example.api_in_Comment = "Comment"
  ∧ registry_lookup (typeinfo_metadata example.api_in_Comment) example.Manager
      "django.db.models.manager.ManagerFromQ"
    = Some "app.models.Q_AsManager_Article"
  ∧ registry_lookup
      (typeinfo_metadata
         (create_manager_class_from_as_manager_method ctx example.api_in_Comment).2)
      example.Manager "django.db.models.manager.ManagerFromQ"
    = Some "app.models.Q_AsManager_Comment".
Proof.
  intros ctx. do 2 (split; [reflexivity|]).
  assert (enclosing_model_name example.api_in_Article
          ≠ enclosing_model_name example.api_in_Comment) as Hmodels.
  { vm_compute. discriminate. }
  pose proof (as_manager_registry_has_one_entry_per_queryset
                (fullnames := example.django) (host := example.analyzer) ctx ctx
                example.api_in_Article example.api_in_Comment example.Q_class
                example.Manager eq_refl eq_refl eq_refl eq_refl eq_refl Hmodels eq_refl)
    as Hentries.
  cbv zeta in Hentries. destruct Hentries as (Hfirst & Hsecond & _).
  split; [exact Hfirst|exact Hsecond].
Defined.


Lemma request_user_is_never_narrowed_witness :
  let ctx := {| default_attr_type := example.custom_user_type |} in
  let run :=
    set_auth_user_model_as_type_for_request_user
      "django.contrib.auth.base_user.AbstractBaseUser"
      "django.contrib.auth.models.AnonymousUser"
      example.lookup_typeinfo ctx example.project example.request_checker in
  run.1 = Return example.custom_user_type
  ∧ example.custom_user_type = default_attr_type ctx
  ∧ run.2 = example.request_checker.
Proof.
  intros ctx run. split; [reflexivity|].
  exact (request_user_is_never_narrowed
           "django.contrib.auth.base_user.AbstractBaseUser"
           "django.contrib.auth.models.AnonymousUser"
           example.lookup_typeinfo ctx example.project example.request_checker run.2
           example.custom_user_type eq_refl).
Defined.

(** The stock user type in a project whose user model the checker knows:
    the last line is reached and raises. *)
Lemma request_user_known_model_raises_name_error_witness :
  let ctx := {| default_attr_type := example.stock_user_type |} in
  get_model example.project_with_known_user
    (AUTH_USER_MODEL example.project_with_known_user)
  = Return "django.contrib.auth.base_user.AbstractBaseUser"
  ∧ example.lookup_typeinfo example.request_checker
      "django.contrib.auth.base_user.AbstractBaseUser"
    = Some example.AbstractBaseUser_info
  ∧ MypyType_eqb (default_attr_type ctx) example.stock_user_type = true
  ∧ set_auth_user_model_as_type_for_request_user
      "django.contrib.auth.base_user.AbstractBaseUser"
      "django.contrib.auth.models.AnonymousUser"
      example.lookup_typeinfo ctx example.project_with_known_user
      example.request_checker
    = (Raise (NameError "user_info"), example.request_checker).
Proof.
  intros ctx. do 3 (split; [reflexivity|]).
  exact (request_user_known_model_raises_name_error
           "django.contrib.auth.base_user.AbstractBaseUser"
           "django.contrib.auth.models.AnonymousUser"
           example.lookup_typeinfo ctx example.project_with_known_user
           example.request_checker
           example.AbstractBaseUser_info example.AnonymousUser_info
           example.AbstractBaseUser_info
           "django.contrib.auth.base_user.AbstractBaseUser"
           eq_refl eq_refl eq_refl eq_refl eq_refl).
Defined.

End further_on_the_project.
